(** * Attendance-based marking of experiment sheets

    A verification development for [AutomationScripts/ContinuousAssesment8.py].

    The script reads one attendance CSV, then rewrites the rubric columns of
    every [experiment_<N>] workbook of a directory from the attendance of
    session [N].  The embedding below follows the script function by
    function and keeps its names.

    Modelling conventions.
    - A Python [str] is a Rocq [string]; a character is a code point below
      256 (Latin-1), with Python's whitespace, lower-casing and [\d] classes
      restricted to that range.
    - A cell is a [value]: [None], a [bool], an [int] (unbounded, [Z]), a
      [float] ([spec_float], IEEE 754 binary64 with NaN) or a [str].
    - A pandas [DataFrame] is its ordered column labels plus one finite map
      from label to cell per row; the index is the row position, which is
      what [read_excel] and [DataFrame(list_of_dicts)] produce.
    - Exceptions are values of [error]; a function that can raise returns a
      [result].  Files, directories and [print] are explicit: a [World] is
      threaded through and the printed lines are collected in order.
    - [int(...)] of a digit run is the mathematical value (the interpreter's
      optional limit on the length of a converted string is not modelled),
      and integer keys are compared exactly. *)

From Stdlib Require Import ZArith Ascii String List Lia.
From Stdlib Require Import Floats.SpecFloat.
From stdpp Require Import base option list gmap strings pretty.

Local Open Scope string_scope.
Local Open Scope Z_scope.
Local Open Scope list_scope.

(** ** Python strings *)

Module PyStr.

Definition code (c : ascii) : N := N_of_ascii c.

(** [str.isspace] on one character of the Latin-1 range. *)
Definition isspace (c : ascii) : bool :=
  let n := code c in
  ((9 <=? n) && (n <=? 13) || (28 <=? n) && (n <=? 32)
   || (n =? 133) || (n =? 160))%N.

(** [\d] of [re] on the Latin-1 range: the ten ASCII digits. *)
Definition isdigit (c : ascii) : bool :=
  let n := code c in ((48 <=? n) && (n <=? 57))%N.

Definition digit_value (c : ascii) : Z := Z.of_N (code c) - 48.

(** [str.lower] on one character. *)
Definition lower_char (c : ascii) : ascii :=
  let n := code c in
  if ((65 <=? n) && (n <=? 90)
      || (192 <=? n) && (n <=? 222) && negb (n =? 215))%N
  then ascii_of_N (n + 32) else c.

Fixpoint lower (s : string) : string :=
  match s with
  | EmptyString => EmptyString
  | String c s' => String (lower_char c) (lower s')
  end.

Fixpoint lstrip (s : string) : string :=
  match s with
  | EmptyString => EmptyString
  | String c s' => if isspace c then lstrip s' else s
  end.

Definition rstrip (s : string) : string :=
  String.rev (lstrip (String.rev s)).

(** [s.strip()] *)
Definition strip (s : string) : string := rstrip (lstrip s).

(** [s.startswith(p)] *)
Definition startswith (p s : string) : bool := String.prefix p s.


(** [p in s] *)
Fixpoint contains (p s : string) : bool :=
  String.prefix p s
  || match s with
     | EmptyString => false
     | String _ s' => contains p s'
     end.

(** The longest prefix of [s] made of digits. *)
Fixpoint take_digits (s : string) : string :=
  match s with
  | String c s' => if isdigit c then String c (take_digits s') else EmptyString
  | EmptyString => EmptyString
  end.

(** [re.search(r"(\d+)", s)]: the leftmost match, extended greedily;
    the result is [m.group(1)]. *)
Fixpoint search_digits (s : string) : option string :=
  match s with
  | EmptyString => None
  | String c s' =>
      if isdigit c then Some (take_digits s) else search_digits s'
  end.

Fixpoint int_go (acc : Z) (s : string) : option Z :=
  match s with
  | EmptyString => Some acc
  | String c s' =>
      if isdigit c then int_go (10 * acc + digit_value c) s' else None
  end.

(** [int(s)] for a string of digits; [None] stands for [ValueError]. *)
Definition int (s : string) : option Z :=
  match s with
  | EmptyString => None
  | _ => int_go 0 s
  end.

(** Reading a digit run: every character is a digit, no character is a
    digit, and the number a run denotes in base ten. *)
Fixpoint all_digits (s : string) : bool :=
  match s with
  | EmptyString => true
  | String c s' => isdigit c && all_digits s'
  end.

Fixpoint no_digit (s : string) : bool :=
  match s with
  | EmptyString => true
  | String c s' => negb (isdigit c) && no_digit s'
  end.

Definition starts_with_digit (s : string) : bool :=
  match s with
  | EmptyString => false
  | String c _ => isdigit c
  end.

Fixpoint decimal (s : string) : Z :=
  match s with
  | EmptyString => 0
  | String c s' =>
      digit_value c * 10 ^ Z.of_nat (String.length s') + decimal s'
  end.

(** [s.split(sep)] for a one-character separator. *)
Fixpoint split_go (sep : ascii) (cur : string) (s : string) : list string :=
  match s with
  | EmptyString => [String.rev cur]
  | String c s' =>
      if Ascii.eqb c sep then String.rev cur :: split_go sep EmptyString s'
      else split_go sep (String c cur) s'
  end.

Definition split (sep : ascii) (s : string) : list string :=
  split_go sep EmptyString s.

(** Index of the last occurrence of [c] in [s] ([s.rfind(c)]). *)
Fixpoint rfind_go (c : ascii) (i : nat) (last : option nat) (s : string)
  : option nat :=
  match s with
  | EmptyString => last
  | String d s' =>
      rfind_go c (S i) (if Ascii.eqb d c then Some i else last) s'
  end.

Definition rfind (c : ascii) (s : string) : option nat :=
  rfind_go c 0%nat None s.

Definition take (n : nat) (s : string) : string := String.substring 0 n s.

Definition drop (n : nat) (s : string) : string :=
  String.substring n (String.length s - n) s.


End PyStr.

(** ** Python values *)

Inductive value : Type :=
  | VNone
  | VBool (b : bool)
  | VInt (z : Z)
  | VFloat (f : spec_float)
  | VStr (s : string).

Definition NaN : value := VFloat S754_nan.

(** The float 1.0. *)
Definition float_one : spec_float :=
  S754_finite false 4503599627370496 (-52).

(** [pd.isna(v)] on a scalar. *)
Definition isna (v : value) : bool :=
  match v with
  | VNone => true
  | VFloat S754_nan => true
  | _ => false
  end.

(** [f != 0] on a float: false for the two zeros only (NaN differs from 0). *)
Definition float_nonzero (f : spec_float) : bool :=
  match f with
  | S754_zero _ => false
  | _ => true
  end.

(** The integer a float is equal to, when there is one. *)
Definition float_int (f : spec_float) : option Z :=
  match f with
  | S754_zero _ => Some 0
  | S754_finite s m e =>
      let sign := if s then (-1) else 1 in
      if 0 <=? e then Some (sign * (Z.pos m * 2 ^ e))
      else if Z.pos m mod 2 ^ (- e) =? 0
           then Some (sign * (Z.pos m / 2 ^ (- e)))
           else None
  | _ => None
  end.

(** [isinstance(v, (int, float))]; [bool] is a subclass of [int]. *)
Definition is_number (v : value) : bool :=
  match v with
  | VBool _ | VInt _ | VFloat _ => true
  | _ => false
  end.

(** [v != 0] for a number. *)
Definition nonzero (v : value) : bool :=
  match v with
  | VBool b => b
  | VInt z => negb (z =? 0)
  | VFloat f => float_nonzero f
  | _ => true
  end.

(** ** Constants *)

Definition PARAM_MARKS : list (string * Z) :=
  [ ("Timely completion, punctuality", 2);
    ("Performance, involvement, efficiency", 4);
    ("Oral Presentation", 3);
    ("Documentation, neatness", 1) ].

Definition SESSION_PREFIX : string := "Session ".
Definition ROLL_ALIASES : list string :=
  ["Roll"; "Roll No"; "Roll No."; "RollNumber"].
Definition TOTAL_COL_NAME : string := "Total".

(** The helper column of both frames. *)
Definition ROLL_KEY : string := "__roll_num_key".

Definition PRESENT_WORDS : list string :=
  ["p"; "present"; "yes"; "y"; "1"; "attended"; "true"].

(** ** Errors *)

Inductive error : Type :=
  | HeaderNotFound                       (* ValueError of load_attendance *)
  | NoRollColumn (excel_path : string)   (* KeyError of process_experiment *)
  | SessionNotFound (session_col : string)
  | KeyError (label : string)            (* KeyError raised by pandas *)
  | FileNotFound (path : string)
  | RollKeyMissing                       (* RuntimeError of main *)
  | ReadError (path : string)
  | WriteError (path : string).

Inductive result (A : Type) : Type :=
  | Ok (a : A)
  | Raise (e : error).
Arguments Ok {A} a.
Arguments Raise {A} e.

Global Instance result_ret : MRet result := fun A a => Ok a.

Global Instance result_bind : MBind result := fun A B k r =>
  match r with
  | Ok a => k a
  | Raise e => Raise e
  end.

Global Instance spec_float_eq_dec : EqDecision spec_float.
Proof. solve_decision. Defined.

Global Instance value_eq_dec : EqDecision value.
Proof. solve_decision. Defined.

Global Instance error_eq_dec : EqDecision error.
Proof. solve_decision. Defined.

(** ** Data frames *)

Record DataFrame : Type := {
  columns : list string;
  rows : list (gmap string value)
}.

(** The cell of a row under a label; pandas holds a missing cell as NaN. *)
Definition cell (row : gmap string value) (c : string) : value :=
  default NaN (row !! c).

(** [df[c]] *)
Definition getitem (df : DataFrame) (c : string) : result (list value) :=
  if decide (c ∈ columns df) then Ok ((fun r => cell r c) <$> rows df)
  else Raise (KeyError c).

(** [df[c] = series], the series aligned with the rows: an existing column
    is overwritten in place, a new one is appended. *)
Definition setitem (df : DataFrame) (c : string) (series : list value)
  : DataFrame :=
  {| columns := if decide (c ∈ columns df) then columns df
                else columns df ++ [c];
     rows := zip_with (fun r v => <[c := v]> r) (rows df) series |}.

(** [df[c] = v] for a scalar [v]. *)
Definition setitem_scalar (df : DataFrame) (c : string) (v : value)
  : DataFrame :=
  {| columns := if decide (c ∈ columns df) then columns df
                else columns df ++ [c];
     rows := (fun r => <[c := v]> r) <$> rows df |}.

(** [df.at[idx, c] = v] *)
Definition at_set (idx : nat) (c : string) (v : value) (df : DataFrame)
  : DataFrame :=
  {| columns := columns df;
     rows := alter (fun r => <[c := v]> r) idx (rows df) |}.

(** [df.at[idx, c]] *)
Definition at_get (idx : nat) (c : string) (df : DataFrame) : value :=
  match rows df !! idx with
  | Some r => cell r c
  | None => NaN
  end.

(** [df.drop(columns=[c], inplace=True, errors="ignore")] *)
Definition drop_column (df : DataFrame) (c : string) : DataFrame :=
  {| columns := filter (fun x => x ≠ c) (columns df);
     rows := (fun r => delete c r) <$> rows df |}.

(** [pd.DataFrame(records)] for dictionaries that all have the keys [cols]
    in that order; without records the frame has no column. *)
Definition DataFrame_of_records (cols : list string)
    (records : list (gmap string value)) : DataFrame :=
  {| columns := match records with [] => [] | _ => cols end;
     rows := records |}.

(** The integer a dictionary key hashes and compares as: [1 == 1.0 == True]
    in Python.  Strings, [None] and NaN are equal to no integer. *)
Definition dict_key (v : value) : option Z :=
  match v with
  | VInt z => Some z
  | VBool b => Some (Z.b2z b)
  | VFloat f => float_int f
  | _ => None
  end.

(** [df.set_index(key_col)[val_col].to_dict()].  The dictionary is probed
    with integer keys only, so it is kept as a map from integers; an index
    entry that is no integer (a missing key) can never be probed and is
    left out.  A later row replaces an earlier one with the same key. *)
Definition dict_step (key_col val_col : string) (m : gmap Z value)
    (r : gmap string value) : gmap Z value :=
  match dict_key (cell r key_col) with
  | Some k => <[k := cell r val_col]> m
  | None => m
  end.

Definition set_index_to_dict (df : DataFrame) (key_col val_col : string)
  : result (gmap Z value) :=
  if decide (key_col ∈ columns df) then
    if decide (val_col ∈ filter (fun x => x ≠ key_col) (columns df)) then
      Ok (foldl (dict_step key_col val_col) ∅ (rows df))
    else Raise (KeyError val_col)
  else Raise (KeyError key_col).

(** The integer read back from a mark cell by [sum]. *)
Definition int_value (v : value) : Z :=
  match v with
  | VInt z => z
  | VBool b => Z.b2z b
  | _ => 0
  end.

(** ** Files, directories and printed lines *)

Inductive file : Type :=
  | CsvFile (content : list (list string))
  | ExcelFile (df : DataFrame)
  | OtherFile.

(** [locked] holds the paths a workbook cannot be written to. *)
Record World : Type := {
  files : gmap string file;
  listing : gmap string (list string);
  locked : gset string
}.

Inductive line : Type :=
  | Processed (basename session_col out_path : string)
  | Skipping (fname : string)
  | ErrorProcessing (fname : string) (e : error).


(** [pd.read_excel(path)] *)
Definition read_excel (w : World) (path : string) : result DataFrame :=
  match files w !! path with
  | Some (ExcelFile df) => Ok df
  | _ => Raise (ReadError path)
  end.

(** [df.to_excel(path, index=False)] *)
Definition to_excel (w : World) (df : DataFrame) (path : string)
  : result World :=
  if decide (path ∈ locked w) then Raise (WriteError path)
  else Ok {| files := <[path := ExcelFile df]> (files w);
             listing := listing w;
             locked := locked w |}.

(** [list(csv.reader(open(path)))] *)
Definition read_csv_rows (w : World) (path : string)
  : result (list (list string)) :=
  match files w !! path with
  | Some (CsvFile content) => Ok content
  | Some _ => Raise (ReadError path)
  | None => Raise (FileNotFound path)
  end.

Module OsPath.

(** [os.path.basename] *)
Definition basename (p : string) : string :=
  match PyStr.rfind "/" p with
  | Some i => PyStr.drop (S i) p
  | None => p
  end.



End OsPath.

(** Truthiness of an optional path: [None] and the empty string are false. *)
Definition truthy (p : option string) : option string :=
  match p with
  | Some s => if decide (s = "") then None else Some s
  | None => None
  end.

(** ** The script *)

Section Script.

(** [str(f)] for a float [f].  The rendering of floats belongs to the
    interpreter; everything below holds for any rendering. *)
Variable float_str : spec_float -> string.

(** [str(v)] *)
Definition py_str (v : value) : string :=
  match v with
  | VNone => "None"
  | VBool true => "True"
  | VBool false => "False"
  | VInt z => pretty z
  | VFloat f => float_str f
  | VStr s => s
  end.

Definition extract_roll_number (roll : value) : option Z :=
  if isna roll then None
  else
    let s := py_str roll in
    match PyStr.search_digits s with
    | Some g =>
        match PyStr.int g with
        | Some n => Some n
        | None => None                   (* except ValueError *)
        end
    | None => None
    end.

Definition normalize_presence (val : value) : bool :=
  match val with
  | VNone => false
  | _ =>
      if is_number val then nonzero val
      else
        let s := PyStr.lower (PyStr.strip (py_str val)) in
        bool_decide (s ∈ PRESENT_WORDS)
  end.

(** How the result of [.apply(extract_roll_number)] is held in a column:
    a missing key is a missing cell. *)
Definition key_cell (k : option Z) : value :=
  match k with
  | Some z => VInt z
  | None => NaN
  end.

(** *** load_attendance *)

(** The test of line 50 on one row of the CSV. *)
Definition is_header_row (row : list string) : bool :=
  (1 <=? length row)%nat
  && existsb (fun c => PyStr.startswith "roll" (PyStr.lower (PyStr.strip c)))
             (take 3 row).

Definition find_header (rows : list (list string)) : option nat :=
  fst <$> list_find (fun row => is_header_row row = true) rows.

(** [range(1, 5)] *)
Definition SESSION_NUMS : list nat := seq 1 4.

Definition session_label (session_num : nat) : string :=
  SESSION_PREFIX +:+ pretty session_num.

Definition att_idx (session_num : nat) : nat :=
  (3 + (session_num - 1) * 2)%nat.

(** The cell handed to [normalize_presence] at line 71. *)
Definition presence_cell (row : list string) (session_num : nat) : value :=
  if (att_idx session_num <? length row)%nat
  then VStr (default "" (row !! att_idx session_num))
  else VNone.

(** The dictionary appended to [cleaned] for one data row. *)
Definition attendance_record (row : list string) : gmap string value :=
  let roll_raw := PyStr.strip (default "" (row !! 0%nat)) in
  let name := PyStr.strip (default "" (row !! 1%nat)) in
  let surname := PyStr.strip (default "" (row !! 2%nat)) in
  let base : gmap string value :=
    <["Surname" := VStr surname]>
      (<["Name" := VStr name]> (<["Roll No." := VStr roll_raw]> ∅)) in
  foldl (fun (d : gmap string value) session_num =>
           <[session_label session_num :=
               VBool (normalize_presence (presence_cell row session_num))]> d)
        base SESSION_NUMS.

Definition RECORD_COLUMNS : list string :=
  (["Roll No."; "Name"; "Surname"] ++ (session_label <$> SESSION_NUMS))%list.

(** The rows kept by the loop of lines 61-78. *)
Definition cleaned_rows (raw_rows : list (list string))
  : list (list string) :=
  filter (fun row => (3 ≤ length row)%nat) raw_rows.

(** Lines 47-82, on the rows read from the file. *)
Definition parse_attendance (rows : list (list string)) : result DataFrame :=
  match find_header rows with
  | None => Raise HeaderNotFound
  | Some header_idx =>
      let data_start := (header_idx + 3)%nat in
      let raw_rows := drop data_start rows in
      let cleaned := attendance_record <$> cleaned_rows raw_rows in
      let df := DataFrame_of_records RECORD_COLUMNS cleaned in
      rolls ← getitem df "Roll No.";
      Ok (setitem df ROLL_KEY ((key_cell ∘ extract_roll_number) <$> rolls))
  end.

Definition load_attendance (w : World) (path : string) : result DataFrame :=
  rows ← read_csv_rows w path;
  parse_attendance rows.

(** *** find_roll_column *)

Definition alias_match (alias col : string) : bool :=
  bool_decide (PyStr.lower (PyStr.strip col)
               = PyStr.lower (PyStr.strip alias)).

Definition mentions_roll (col : string) : bool :=
  PyStr.contains "roll" (PyStr.lower (PyStr.strip col)).

Fixpoint first_alias (aliases cols : list string) : option string :=
  match aliases with
  | [] => None
  | alias :: rest =>
      match List.find (alias_match alias) cols with
      | Some col => Some col
      | None => first_alias rest cols
      end
  end.

Definition find_roll_column (cols : list string) : option string :=
  match first_alias ROLL_ALIASES cols with
  | Some col => Some col
  | None => List.find mentions_roll cols
  end.

(** *** process_experiment *)

(** Lines 113-119: append a zero column when the label is missing. *)
Definition ensure_column (df : DataFrame) (c : string) : DataFrame :=
  if decide (c ∈ columns df) then df else setitem_scalar df c (VInt 0).

(** [key in attendance_map], then [attendance_map.get(key)]. *)
Definition dict_get (m : gmap Z value) (key : value) : option value :=
  match dict_key key with
  | Some k => m !! k
  | None => None
  end.

(** One turn of the loop of lines 122-134, at index [idx]. *)
Definition mark_at (attendance_map : gmap Z value) (df : DataFrame)
    (idx : nat) : DataFrame :=
  match rows df !! idx with
  | None => df
  | Some row =>
      match row !! ROLL_KEY with
      | None => df
      | Some key =>
          if isna key then df
          else
            match dict_get attendance_map key with
            | None => df
            | Some looked_up =>
                let present := normalize_presence looked_up in
                let df1 :=
                  foldl (fun d '(param, mark) =>
                           at_set idx param
                                  (VInt (if present then mark else 0)) d)
                        df PARAM_MARKS in
                let total_score :=
                  foldr Z.add 0
                    ((fun '(param, _) => int_value (at_get idx param df1))
                       <$> PARAM_MARKS) in
                at_set idx TOTAL_COL_NAME (VInt total_score) df1
            end
      end
  end.

Definition mark_rows (attendance_map : gmap Z value) (df : DataFrame)
  : DataFrame :=
  foldl (mark_at attendance_map) df (seq 0 (length (rows df))).

(** Lines 99-137: the table transformation of [process_experiment]. *)
Definition process_table (excel_path : string) (attendance_df : DataFrame)
    (session_col : string) (exp_df : DataFrame) : result DataFrame :=
  match find_roll_column (columns exp_df) with
  | None => Raise (NoRollColumn excel_path)
  | Some roll_col =>
      rolls ← getitem exp_df roll_col;
      let exp_df :=
        setitem exp_df ROLL_KEY ((key_cell ∘ extract_roll_number) <$> rolls) in
      if decide (session_col ∈ columns attendance_df) then
        attendance_map ←
          set_index_to_dict attendance_df ROLL_KEY session_col;
        let exp_df := foldl ensure_column exp_df (fst <$> PARAM_MARKS) in
        let exp_df := ensure_column exp_df TOTAL_COL_NAME in
        let exp_df := mark_rows attendance_map exp_df in
        Ok (drop_column exp_df ROLL_KEY)
      else Raise (SessionNotFound session_col)
  end.

Definition process_experiment (w : World) (excel_path : string)
    (attendance_df : DataFrame) (session_col : string)
    (output_path : option string) : result (World * line) :=
  exp_df ← read_excel w excel_path;
  exp_df ← process_table excel_path attendance_df session_col exp_df;
  let out_path := default excel_path (truthy output_path) in
  w' ← to_excel w exp_df out_path;
  Ok (w', Processed (OsPath.basename excel_path) session_col out_path).

(** *** main *)










(** *** Row-wise reading of the table transformation

    The loop of [process_experiment] touches one row per turn, so the whole
    transformation acts row by row.  The definitions below spell that out;
    [process_table_rowwise] further down proves that they describe
    [process_table]. *)

(** The row of the attendance frame made from one data row of the CSV:
    the record, then the key under [__roll_num_key]. *)
Definition keyed_record (row : list string) : gmap string value :=
  <[ROLL_KEY := key_cell (extract_roll_number
                            (VStr (PyStr.strip (default "" (row !! 0%nat)))))]>
    (attendance_record row).

(** The data rows of an attendance CSV, in file order. *)
Definition data_rows (csv : list (list string)) : list (list string) :=
  match find_header csv with
  | Some header_idx => cleaned_rows (drop (header_idx + 3) csv)
  | None => []
  end.

(** The labels written by the marking loop. *)
Definition MARK_COLUMNS : list string :=
  ((fst <$> PARAM_MARKS) ++ [TOTAL_COL_NAME])%list.

Definition mark_row (attendance_map : gmap Z value)
    (row : gmap string value) : gmap string value :=
  match row !! ROLL_KEY with
  | None => row
  | Some key =>
      if isna key then row
      else
        match dict_get attendance_map key with
        | None => row
        | Some looked_up =>
            let present := normalize_presence looked_up in
            let row1 :=
              foldl (fun (r : gmap string value) '(param, mark) =>
                       <[param := VInt (if present then mark else 0)]> r)
                    row PARAM_MARKS in
            let total_score :=
              foldr Z.add 0
                ((fun '(param, _) => int_value (cell row1 param))
                   <$> PARAM_MARKS) in
            <[TOTAL_COL_NAME := VInt total_score]> row1
        end
  end.

Definition ensure_cell (cols : list string) (row : gmap string value)
    (c : string) : gmap string value :=
  if decide (c ∈ cols) then row else <[c := VInt 0]> row.

Definition add_label (cols : list string) (c : string) : list string :=
  if decide (c ∈ cols) then cols else (cols ++ [c])%list.

Definition process_row (cols : list string) (roll_col : string)
    (attendance_map : gmap Z value) (row : gmap string value)
  : gmap string value :=
  let keyed :=
    <[ROLL_KEY := key_cell (extract_roll_number (cell row roll_col))]> row in
  let ensured :=
    foldl (ensure_cell (add_label cols ROLL_KEY)) keyed MARK_COLUMNS in
  delete ROLL_KEY (mark_row attendance_map ensured).

Definition out_columns (cols : list string) : list string :=
  filter (fun x => x ≠ ROLL_KEY)
         (foldl add_label (add_label cols ROLL_KEY) MARK_COLUMNS).

(** A label picked by [find_roll_column] is a label of the table that
    matches an alias or mentions "roll". *)
Definition roll_like (c : string) : bool :=
  existsb (fun alias => alias_match alias c) ROLL_ALIASES || mentions_roll c.

(** The mark written under a label by a turn of the loop that found the
    student's attendance. *)
Definition mark_value (present : bool) (c : string) : option value :=
  if decide (c = TOTAL_COL_NAME) then Some (VInt (if present then 10 else 0))
  else if decide (c = "Timely completion, punctuality")
  then Some (VInt (if present then 2 else 0))
  else if decide (c = "Performance, involvement, efficiency")
  then Some (VInt (if present then 4 else 0))
  else if decide (c = "Oral Presentation")
  then Some (VInt (if present then 3 else 0))
  else if decide (c = "Documentation, neatness")
  then Some (VInt (if present then 1 else 0))
  else None.

(** The cell of an output row under label [c], read off the input row. *)
Definition expected_cell (cols : list string) (roll_col : string)
    (m : gmap Z value) (row : gmap string value) (c : string)
  : option value :=
  if decide (c = ROLL_KEY) then None
  else
    let unmarked :=
      if decide (c ∈ MARK_COLUMNS /\ c ∉ add_label cols ROLL_KEY)
      then Some (VInt 0) else row !! c in
    match extract_roll_number (cell row roll_col) with
    | Some k =>
        match m !! k with
        | Some looked_up =>
            match mark_value (normalize_presence looked_up) c with
            | Some x => Some x
            | None => unmarked
            end
        | None => unmarked
        end
    | None => unmarked
    end.

(** ** Sample data

    One attendance file, one score table and one directory, on which the
    statements above are instantiated.  The samples hold no float, so the
    rendering handed to the script is never consulted. *)

Definition sample_float_str : spec_float -> string := fun _ => "nan".

Definition sample_csv : list (list string) :=
  [ ["Attendance sheet"];
    [];
    ["Roll No."; "Name"; "Surname"; "Session 1"; ""; "Session 2"];
    [""; ""; ""; "Attendance"; "Time"; "Attendance"; "Time"];
    [""; ""; ""; ""; ""; ""; ""];
    ["14"; "Jane"; "Doe"; "P"; "09:00"; "A"; "09:05"];
    ["x"];
    ["CS-015"; "Ann"; "Lee"; "0"];
    ["15"; "Ann"; "Lee"; "yes"] ].

Definition sample_attendance : DataFrame :=
  match parse_attendance sample_csv with
  | Ok df => df
  | Raise _ => {| columns := []; rows := [] |}
  end.

(** The lookup of "Session 1" in [sample_attendance]. *)
Definition sample_map : gmap Z value :=
  <[15 := VBool true]> (<[14 := VBool true]> ∅).

Definition sample_row (roll : value) (name : string) (oral total : Z)
  : gmap string value :=
  <["Total" := VInt total]>
    (<["Oral Presentation" := VInt oral]>
       (<["Name" := VStr name]> (<["Roll No" := roll]> ∅))).

Definition sample_exp : DataFrame :=
  {| columns := ["Roll No"; "Name"; "Oral Presentation"; "Total"];
     rows := [ sample_row (VInt 14) "Jane" 1 7;
               sample_row (VStr "15") "Ann" 1 7;
               sample_row (VStr "16") "Bob" 1 7;
               sample_row NaN "Eve" 1 7 ] |}.

(** A table whose only roll-like column is the helper label itself. *)
Definition sample_helper_exp : DataFrame :=
  {| columns := ["__roll_num_key"; "Name"];
     rows := [ <["Name" := VStr "Jane"]>
                 (<["__roll_num_key" := VStr "14"]> ∅) ] |}.

(** A table with both a roll column and a stale helper column. *)
Definition sample_stale_exp : DataFrame :=
  {| columns := ["Roll No"; "__roll_num_key"];
     rows := [ <["__roll_num_key" := VStr "stale"]>
                 (<["Roll No" := VStr "14"]> ∅) ] |}.


Definition sample_world : World :=
  {| files :=
       <["exps/experiment_abc.xlsx" := ExcelFile sample_exp]>
         (<["exps/experiment_2.xlsx" := ExcelFile sample_exp]>
            (<["att.csv" := CsvFile sample_csv]> ∅));
     listing :=
       <["exps" := ["experiment_1.xlsx"; "notes.txt"; "experiment_2.xlsx";
                    "experiment_abc.xlsx"]]> ∅;
     locked := ∅ |}.

(** A frame is rectangular when every row has a cell under exactly the
    labels of the frame, as every pandas frame has. *)
Definition rectangular (df : DataFrame) : Prop :=
  forall row, row ∈ rows df -> forall c, is_Some (row !! c) <-> c ∈ columns df.

(** ** Properties *)

(** *** The marking loop *)

Lemma alter_lookup_insert {A} (f : A -> A) (l : list A) i x :
  l !! i = Some x -> alter f i l = <[i := f x]> l.
Proof.
  revert i. induction l as [|y l IH]; intros [|i] H; simplify_eq/=; auto.
  f_equal. by apply IH.
Qed.

Lemma mark_at_spec m df idx row :
  rows df !! idx = Some row ->
  mark_at m df idx =
    {| columns := columns df; rows := <[idx := mark_row m row]> (rows df) |}.
Proof.
  intros Hrow. unfold mark_at, mark_row. rewrite Hrow.
  assert (Hid : df = {| columns := columns df;
                        rows := <[idx := row]> (rows df) |}).
  { rewrite list_insert_id by done. by destruct df. }
  destruct (row !! ROLL_KEY) as [key|]; [|done].
  destruct (isna key); [done|].
  destruct (dict_get m key) as [looked_up|]; [|done].
  unfold at_set, at_get. cbn [foldl PARAM_MARKS fmap list_fmap columns rows].
  rewrite !list_lookup_alter_eq, Hrow. cbn [fmap option_fmap option_map].
  rewrite !list_alter_alter_eq.
  f_equal. by rewrite (alter_lookup_insert _ _ _ row).
Qed.

Lemma mark_rows_from m cols done todo :
  foldl (mark_at m)
        {| columns := cols; rows := (mark_row m <$> done) ++ todo |}
        (seq (length done) (length todo))
  = {| columns := cols; rows := mark_row m <$> (done ++ todo) |}.
Proof.
  revert done. induction todo as [|r todo IH]; intros done.
  - by rewrite !app_nil_r.
  - cbn [length seq foldl].
    rewrite (mark_at_spec _ _ _ r).
    2:{ cbn [rows]. rewrite lookup_app_r by (by rewrite length_fmap).
        by rewrite length_fmap, Nat.sub_diag. }
    cbn [columns rows].
    replace (<[length done := mark_row m r]> ((mark_row m <$> done) ++ r :: todo))
      with ((mark_row m <$> (done ++ [r])) ++ todo).
    + specialize (IH (done ++ [r])).
      rewrite length_app, Nat.add_1_r in IH. rewrite IH.
      by rewrite <- app_assoc.
    + rewrite fmap_app, <- app_assoc.
      rewrite insert_app_r_alt by (by rewrite length_fmap).
      by rewrite length_fmap, Nat.sub_diag.
Qed.

Lemma mark_rows_spec m df :
  mark_rows m df =
    {| columns := columns df; rows := mark_row m <$> rows df |}.
Proof.
  unfold mark_rows. destruct df as [cols rs]. cbn [columns rows].
  exact (mark_rows_from m cols [] rs).
Qed.

(** *** Column assignment and the zero columns *)

Lemma setitem_apply_rows df c (g : value -> value) rc :
  rows (setitem df c (g <$> ((fun r => cell r rc) <$> rows df)))
  = (fun r => <[c := g (cell r rc)]> r) <$> rows df.
Proof.
  cbn [rows setitem]. rewrite <- list_fmap_compose.
  rewrite zip_with_fmap_r, zip_with_diag. done.
Qed.

Lemma elem_of_add_label cols c c' :
  c' ∈ add_label cols c <-> c' ∈ cols \/ c' = c.
Proof.
  unfold add_label. case_decide.
  - split; [auto|]. intros [?| ->]; done.
  - rewrite elem_of_app, list_elem_of_singleton. done.
Qed.

Lemma foldl_ext_in {A B} (f g : A -> B -> A) (l : list B) :
  (forall b, b ∈ l -> forall a, f a b = g a b) ->
  forall a, foldl f a l = foldl g a l.
Proof.
  induction l as [|b l IH]; intros H a; [done|]. cbn [foldl].
  rewrite (H b) by left. apply IH. intros b' Hb'. apply H. by right.
Qed.

Lemma ensure_column_spec df c :
  ensure_column df c =
    {| columns := add_label (columns df) c;
       rows := (fun r => ensure_cell (columns df) r c) <$> rows df |}.
Proof.
  unfold ensure_column, add_label, ensure_cell, setitem_scalar.
  destruct df as [cols rs]; cbn [columns rows].
  case_decide; [|done]. by rewrite list_fmap_id.
Qed.

Lemma ensure_columns_spec cs :
  NoDup cs ->
  forall df,
    foldl ensure_column df cs =
      {| columns := foldl add_label (columns df) cs;
         rows := (fun r => foldl (ensure_cell (columns df)) r cs)
                   <$> rows df |}.
Proof.
  induction 1 as [|c cs Hc _ IH]; intros df.
  - destruct df as [cols rs]; cbn [foldl columns rows].
    by rewrite list_fmap_id.
  - cbn [foldl]. rewrite IH, ensure_column_spec. cbn [columns rows].
    f_equal. rewrite <- list_fmap_compose.
    apply list_fmap_ext. intros _ r _. cbn [compose].
    apply foldl_ext_in. intros c' Hc' r'. unfold ensure_cell.
    assert (c' ≠ c) by (intros ->; done).
    pose proof (elem_of_add_label (columns df) c c') as Hiff.
    destruct (decide (c' ∈ add_label (columns df) c));
      destruct (decide (c' ∈ columns df)); try done; exfalso; tauto.
Qed.

Lemma NoDup_MARK_COLUMNS : NoDup MARK_COLUMNS.
Proof. apply (bool_decide_unpack _). by vm_compute. Qed.

(** *** find_roll_column *)

Lemma find_elem_of {A} (f : A -> bool) (l : list A) x :
  List.find f l = Some x -> x ∈ l /\ f x = true.
Proof.
  intros H. apply find_some in H as [H1 H2]. by rewrite list_elem_of_In.
Qed.

Lemma first_alias_elem_of aliases cols c :
  first_alias aliases cols = Some c ->
  c ∈ cols /\ exists alias, alias ∈ aliases /\ alias_match alias c = true.
Proof.
  induction aliases as [|a aliases IH]; [done|]. cbn [first_alias].
  destruct (List.find (alias_match a) cols) as [col|] eqn:Hf.
  - intros [= ->]. apply find_elem_of in Hf as [? ?].
    split; [done|]. exists a. split; [left|done].
  - intros H. destruct (IH H) as (? & a' & ? & ?).
    split; [done|]. exists a'. split; [by right|done].
Qed.

Lemma find_roll_column_Some cols c :
  find_roll_column cols = Some c -> c ∈ cols /\ roll_like c = true.
Proof.
  unfold find_roll_column, roll_like.
  destruct (first_alias ROLL_ALIASES cols) as [col|] eqn:Ha.
  - intros [= ->]. apply first_alias_elem_of in Ha as (? & a & Ha & ?).
    split; [done|]. apply orb_true_iff. left.
    apply existsb_exists. exists a. by rewrite <- list_elem_of_In.
  - intros H. apply find_elem_of in H as [? ->]. split; [done|].
    apply orb_true_r.
Qed.

(** *** process_table, row by row *)

Lemma set_index_to_dict_Ok_columns df key_col val_col m :
  set_index_to_dict df key_col val_col = Ok m -> val_col ∈ columns df.
Proof.
  unfold set_index_to_dict. repeat case_decide; try done.
  intros _. eapply list_elem_of_filter; eauto.
Qed.

Lemma process_table_rowwise excel_path attendance_df session_col exp_df
    roll_col m :
  find_roll_column (columns exp_df) = Some roll_col ->
  set_index_to_dict attendance_df ROLL_KEY session_col = Ok m ->
  process_table excel_path attendance_df session_col exp_df =
    Ok {| columns := out_columns (columns exp_df);
          rows := process_row (columns exp_df) roll_col m <$> rows exp_df |}.
Proof.
  intros Hroll Hmap. unfold process_table. rewrite Hroll.
  destruct (find_roll_column_Some _ _ Hroll) as [Hin _].
  unfold getitem. rewrite decide_True by done. cbn [mbind result_bind].
  rewrite decide_True by (by eapply set_index_to_dict_Ok_columns).
  rewrite Hmap. cbn [mbind result_bind]. f_equal.
  change (ensure_column
            (foldl ensure_column ?d (fst <$> PARAM_MARKS)) TOTAL_COL_NAME)
    with (foldl ensure_column d MARK_COLUMNS).
  rewrite (ensure_columns_spec _ NoDup_MARK_COLUMNS), mark_rows_spec.
  unfold drop_column, out_columns. cbn [columns rows]. f_equal.
  rewrite setitem_apply_rows.
  rewrite <- !list_fmap_compose. done.
Qed.

Lemma process_table_Ok_inv excel_path attendance_df session_col exp_df out :
  process_table excel_path attendance_df session_col exp_df = Ok out ->
  exists roll_col m,
    find_roll_column (columns exp_df) = Some roll_col
    /\ set_index_to_dict attendance_df ROLL_KEY session_col = Ok m
    /\ out = {| columns := out_columns (columns exp_df);
                rows := process_row (columns exp_df) roll_col m
                          <$> rows exp_df |}.
Proof.
  intros H.
  destruct (find_roll_column (columns exp_df)) as [roll_col|] eqn:Hroll.
  2:{ unfold process_table in H. by rewrite Hroll in H. }
  destruct (set_index_to_dict attendance_df ROLL_KEY session_col)
    as [m|e] eqn:Hmap.
  - exists roll_col, m. rewrite (process_table_rowwise _ _ _ _ _ _ Hroll Hmap) in H.
    by injection H as <-.
  - exfalso. unfold process_table in H. rewrite Hroll in H.
    destruct (find_roll_column_Some _ _ Hroll) as [Hin _].
    unfold getitem in H. rewrite decide_True in H by done.
    cbn [mbind result_bind] in H.
    case_decide; [|done]. by rewrite Hmap in H.
Qed.

(** *** The cells of an output row *)

Ltac label_cases c :=
  destruct (decide (c = TOTAL_COL_NAME)) as [->|];
  [|destruct (decide (c = "Timely completion, punctuality")) as [->|];
    [|destruct (decide (c = "Performance, involvement, efficiency")) as [->|];
      [|destruct (decide (c = "Oral Presentation")) as [->|];
        [|destruct (decide (c = "Documentation, neatness")) as [->|]]]]].

Lemma mark_value_None present c :
  mark_value present c = None <-> c ∉ MARK_COLUMNS.
Proof.
  unfold mark_value, MARK_COLUMNS. cbn [PARAM_MARKS fmap list_fmap fst app].
  rewrite !not_elem_of_cons. repeat case_decide; subst; split; try done.
  - intros H'; decompose [and] H'; done.
  - intros H'; decompose [and] H'; done.
  - intros H'; decompose [and] H'; done.
  - intros H'; decompose [and] H'; done.
  - intros H'; decompose [and] H'; done.
  - intros _. repeat split; try done. apply not_elem_of_nil.
Qed.

Lemma mark_row_lookup m row key looked_up c :
  row !! ROLL_KEY = Some key ->
  isna key = false ->
  dict_get m key = Some looked_up ->
  mark_row m row !! c =
    match mark_value (normalize_presence looked_up) c with
    | Some x => Some x
    | None => row !! c
    end.
Proof.
  intros Hkey Hna Hget. unfold mark_row. rewrite Hkey, Hna, Hget.
  cbn [foldl PARAM_MARKS fmap list_fmap foldr]. unfold cell, mark_value.
  repeat (rewrite lookup_insert_eq
          || rewrite lookup_insert_ne by (unfold TOTAL_COL_NAME; done)).
  cbn [default int_value].
  label_cases c;
    repeat (rewrite lookup_insert_eq
            || rewrite lookup_insert_ne by (unfold TOTAL_COL_NAME; done));
    repeat (rewrite decide_True by done || rewrite decide_False by done);
    try done.
  by destruct (normalize_presence looked_up).
Qed.

Lemma mark_row_skip m row :
  (forall key, row !! ROLL_KEY = Some key ->
               isna key = false -> dict_get m key = None) ->
  mark_row m row = row.
Proof.
  intros H. unfold mark_row.
  destruct (row !! ROLL_KEY) as [key|]; [|done].
  destruct (isna key) eqn:Hna; [done|]. by rewrite (H key).
Qed.

Lemma ensure_cells_lookup cols0 cs row c :
  foldl (ensure_cell cols0) row cs !! c =
    if decide (c ∈ cs /\ c ∉ cols0) then Some (VInt 0) else row !! c.
Proof.
  revert row. induction cs as [|c' cs IH]; intros row; cbn [foldl].
  - rewrite decide_False; [done|]. intros [H _]. by apply elem_of_nil in H.
  - rewrite IH. unfold ensure_cell.
    destruct (decide (c ∈ cs /\ c ∉ cols0)) as [[? ?]|Hn].
    + rewrite decide_True; [done|]. split; [by right|done].
    + destruct (decide (c = c')) as [->|Hne].
      * destruct (decide (c' ∈ cols0)).
        -- rewrite decide_False; [done|]. tauto.
        -- rewrite lookup_insert_eq. rewrite decide_True; [done|].
           split; [left|done].
      * assert (row' : (if decide (c' ∈ cols0) then row
                        else <[c':=VInt 0]> row) !! c = row !! c).
        { case_decide; [done|]. by rewrite lookup_insert_ne. }
        rewrite row'. rewrite decide_False; [done|].
        intros [Hin ?]. apply elem_of_cons in Hin as [?|?]; tauto.
Qed.

Lemma ROLL_KEY_not_mark : ROLL_KEY ∉ MARK_COLUMNS.
Proof. apply (bool_decide_unpack _). by vm_compute. Qed.

Lemma process_row_lookup cols roll_col m row c :
  process_row cols roll_col m row !! c = expected_cell cols roll_col m row c.
Proof.
  unfold process_row, expected_cell.
  set (kc := key_cell (extract_roll_number (cell row roll_col))).
  set (ensured := foldl _ _ _).
  assert (Hk : ensured !! ROLL_KEY = Some kc).
  { unfold ensured. rewrite ensure_cells_lookup.
    rewrite decide_False by (intros [? _]; by apply ROLL_KEY_not_mark).
    by rewrite lookup_insert_eq. }
  assert (He : forall c', c' ≠ ROLL_KEY ->
              ensured !! c' =
                if decide (c' ∈ MARK_COLUMNS /\ c' ∉ add_label cols ROLL_KEY)
                then Some (VInt 0) else row !! c').
  { intros c' Hc'. unfold ensured. rewrite ensure_cells_lookup.
    case_decide; [done|]. by rewrite lookup_insert_ne. }
  destruct (decide (c = ROLL_KEY)) as [->|Hc].
  { by rewrite lookup_delete_eq. }
  rewrite lookup_delete_ne by done.
  destruct (extract_roll_number (cell row roll_col)) as [k|] eqn:Hx.
  - destruct (m !! k) as [looked_up|] eqn:Hm.
    + rewrite (mark_row_lookup m ensured kc looked_up); try done.
      by rewrite He.
    + rewrite mark_row_skip; [by apply He|].
      intros key Hkey _. rewrite Hk in Hkey. injection Hkey as <-. done.
  - rewrite mark_row_skip; [by apply He|].
    intros key Hkey Hna. rewrite Hk in Hkey. injection Hkey as <-. done.
Qed.

(** *** Marks of the rows that have attendance *)





(** *** Running the transformation on its own output *)

Lemma find_app_none {A} (f : A -> bool) (l1 l2 : list A) :
  (forall x, x ∈ l2 -> f x = false) ->
  List.find f (l1 ++ l2) = List.find f l1.
Proof.
  intros H. induction l1 as [|x l1 IH]; cbn [app List.find].
  - induction l2 as [|y l2 IH2]; [done|]. cbn [List.find].
    rewrite (H y) by left. apply IH2. intros x Hx. apply H. by right.
  - by destruct (f x).
Qed.

Lemma find_filter_all {A} (f : A -> bool) (Q : A -> Prop)
    `{forall x, Decision (Q x)} (l : list A) :
  (forall x, f x = true -> Q x) ->
  List.find f (filter Q l) = List.find f l.
Proof.
  intros HQ. induction l as [|x l IH]; [done|].
  rewrite filter_cons. cbn [List.find].
  destruct (f x) eqn:Hf.
  - rewrite decide_True by auto. cbn [List.find]. by rewrite Hf.
  - case_decide; [|done]. cbn [List.find]. by rewrite Hf.
Qed.

Lemma find_filter_keep {A} (f : A -> bool) (Q : A -> Prop)
    `{forall x, Decision (Q x)} (l : list A) x :
  List.find f l = Some x -> Q x -> List.find f (filter Q l) = Some x.
Proof.
  intros Hf Hx. induction l as [|y l IH]; [done|].
  rewrite filter_cons. cbn [List.find] in Hf.
  destruct (f y) eqn:Hy.
  - injection Hf as ->. rewrite decide_True by done.
    cbn [List.find]. by rewrite Hy.
  - case_decide; [|by apply IH]. cbn [List.find]. rewrite Hy. by apply IH.
Qed.

Lemma filter_all {A} (Q : A -> Prop) `{forall x, Decision (Q x)}
    (l : list A) :
  (forall x, x ∈ l -> Q x) -> filter Q l = l.
Proof.
  induction l as [|x l IH]; intros HQ; [done|].
  rewrite filter_cons_True by (apply HQ; left).
  f_equal. apply IH. intros y Hy. apply HQ. by right.
Qed.

Lemma first_alias_ext aliases l1 l2 :
  (forall a, a ∈ aliases ->
             List.find (alias_match a) l1 = List.find (alias_match a) l2) ->
  first_alias aliases l1 = first_alias aliases l2.
Proof.
  induction aliases as [|a aliases IH]; intros H; [done|].
  cbn [first_alias]. rewrite (H a) by left.
  destruct (List.find (alias_match a) l2); [done|].
  apply IH. intros a' Ha'. apply H. by right.
Qed.

Lemma foldl_add_label_app cs :
  forall cols, exists E,
    foldl add_label cols cs = cols ++ E /\ forall e, e ∈ E -> e ∈ cs.
Proof.
  induction cs as [|c cs IH]; intros cols; cbn [foldl].
  - exists []. by rewrite app_nil_r.
  - destruct (IH (add_label cols c)) as (E & -> & HE).
    unfold add_label. case_decide.
    + exists E. split; [done|]. intros e He. right. by apply HE.
    + exists (c :: E). rewrite <- app_assoc. split; [done|].
      intros e [->|He]%elem_of_cons; [left|right; by apply HE].
Qed.

Lemma elem_of_foldl_add_label cs cols c :
  c ∈ foldl add_label cols cs <-> c ∈ cols \/ c ∈ cs.
Proof.
  revert cols. induction cs as [|c' cs IH]; intros cols; cbn [foldl].
  - rewrite elem_of_nil. tauto.
  - rewrite IH, elem_of_add_label, elem_of_cons. tauto.
Qed.

Lemma foldl_add_label_id cs cols :
  (forall c, c ∈ cs -> c ∈ cols) -> foldl add_label cols cs = cols.
Proof.
  induction cs as [|c cs IH]; intros H; [done|]. cbn [foldl].
  unfold add_label at 2. rewrite decide_True by (apply H; left).
  apply IH. intros c' Hc'. apply H. by right.
Qed.

Lemma elem_of_out_columns cols c :
  c ∈ out_columns cols <-> c ≠ ROLL_KEY /\ (c ∈ cols \/ c ∈ MARK_COLUMNS).
Proof.
  unfold out_columns.
  rewrite list_elem_of_filter, elem_of_foldl_add_label, elem_of_add_label.
  tauto.
Qed.

Lemma out_columns_shape cols :
  exists E,
    out_columns cols = filter (fun x => x ≠ ROLL_KEY) cols ++ E
    /\ forall e, e ∈ E -> e ∈ MARK_COLUMNS.
Proof.
  unfold out_columns.
  destruct (foldl_add_label_app (ROLL_KEY :: MARK_COLUMNS) cols)
    as (E & HE & Hsub).
  cbn [foldl] in HE. rewrite HE, filter_app.
  exists (filter (fun x => x ≠ ROLL_KEY) E). split; [done|].
  intros e [Hne He]%list_elem_of_filter.
  apply Hsub, elem_of_cons in He as [?|?]; done.
Qed.

Lemma out_columns_idem cols :
  out_columns (out_columns cols) = out_columns cols.
Proof.
  unfold out_columns at 1.
  assert (Hrk : ROLL_KEY ∉ out_columns cols).
  { rewrite elem_of_out_columns. tauto. }
  unfold add_label at 2. rewrite decide_False by done.
  rewrite foldl_add_label_id.
  2:{ intros c Hc. apply elem_of_app. left. apply elem_of_out_columns.
      split; [|by right]. intros ->. by apply ROLL_KEY_not_mark. }
  rewrite filter_app, filter_cons_False, filter_nil, app_nil_r by tauto.
  apply filter_all. intros c Hc ->. done.
Qed.

Lemma marks_not_roll_like c : c ∈ MARK_COLUMNS -> roll_like c = false.
Proof.
  revert c. apply Forall_forall. repeat constructor.
Qed.

Lemma ROLL_KEY_no_alias a :
  a ∈ ROLL_ALIASES -> alias_match a ROLL_KEY = false.
Proof.
  revert a. apply Forall_forall. repeat constructor.
Qed.

Lemma roll_like_false c :
  roll_like c = false ->
  (forall a, a ∈ ROLL_ALIASES -> alias_match a c = false)
  /\ mentions_roll c = false.
Proof.
  unfold roll_like. intros [Ha Hm]%orb_false_iff. split; [|done].
  intros a Hin. destruct (alias_match a c) eqn:Hac; [|done].
  assert (existsb (fun alias => alias_match alias c) ROLL_ALIASES = true);
    [|congruence].
  apply existsb_exists. exists a. by rewrite <- list_elem_of_In.
Qed.

Lemma find_roll_column_out_columns cols roll_col :
  find_roll_column cols = Some roll_col ->
  roll_col ≠ ROLL_KEY ->
  find_roll_column (out_columns cols) = Some roll_col.
Proof.
  intros Hfind Hne. destruct (out_columns_shape cols) as (E & -> & HE).
  unfold find_roll_column in *.
  assert (Ha : first_alias ROLL_ALIASES
                 (filter (fun x => x ≠ ROLL_KEY) cols ++ E)
               = first_alias ROLL_ALIASES cols).
  { apply first_alias_ext. intros a Ha. rewrite find_app_none.
    - apply find_filter_all. intros x Hx ->.
      by rewrite ROLL_KEY_no_alias in Hx.
    - intros x Hx.
      by apply (roll_like_false x (marks_not_roll_like x (HE x Hx))). }
  rewrite Ha. destruct (first_alias ROLL_ALIASES cols); [done|].
  rewrite find_app_none.
  - by apply find_filter_keep.
  - intros x Hx.
    apply (roll_like_false x (marks_not_roll_like x (HE x Hx))).
Qed.

Lemma process_row_idem cols roll_col m row :
  roll_col ≠ ROLL_KEY ->
  roll_like roll_col = true ->
  process_row (out_columns cols) roll_col m (process_row cols roll_col m row)
  = process_row cols roll_col m row.
Proof.
  intros Hne Hlike. apply map_eq. intros c.
  assert (Hnm : roll_col ∉ MARK_COLUMNS).
  { intros Hin%marks_not_roll_like. congruence. }
  assert (Hsame : cell (process_row cols roll_col m row) roll_col
                  = cell row roll_col).
  { unfold cell. rewrite process_row_lookup. unfold expected_cell.
    rewrite decide_False by done. rewrite decide_False by tauto.
    destruct (extract_roll_number (cell row roll_col)) as [k|]; [|done].
    destruct (m !! k) as [looked_up|]; [|done].
    by rewrite (proj2 (mark_value_None _ roll_col)). }
  rewrite (process_row_lookup (out_columns cols)).
  unfold expected_cell at 1. rewrite Hsame.
  destruct (decide (c = ROLL_KEY)) as [->|Hc].
  { unfold process_row. by rewrite lookup_delete_eq. }
  rewrite decide_False.
  2:{ intros [Hin Hnot]. apply Hnot, elem_of_add_label. left.
      apply elem_of_out_columns. tauto. }
  rewrite process_row_lookup. unfold expected_cell.
  rewrite decide_False by done.
  repeat case_match; done.
Qed.

(** C2, as amended: on a table whose roll column is not the helper column
    [__roll_num_key], applying the table transformation to its own result
    gives that result again; a run that raises raises the same way. *)
Theorem process_table_idempotent excel_path attendance_df session_col
    exp_df :
  find_roll_column (columns exp_df) ≠ Some ROLL_KEY ->
  process_table excel_path attendance_df session_col exp_df
    ≫= process_table excel_path attendance_df session_col
  = process_table excel_path attendance_df session_col exp_df.
Proof.
  intros Hne.
  destruct (process_table excel_path attendance_df session_col exp_df)
    as [out|e] eqn:Hout; [|done].
  cbn [mbind result_bind].
  destruct (process_table_Ok_inv _ _ _ _ _ Hout)
    as (roll_col & m & Hroll & Hmap & ->).
  assert (roll_col ≠ ROLL_KEY) by congruence.
  destruct (find_roll_column_Some _ _ Hroll) as [_ Hlike].
  rewrite (process_table_rowwise _ _ _ _ roll_col m);
    [|by apply find_roll_column_out_columns|done].
  cbn [columns rows]. rewrite out_columns_idem. do 2 f_equal.
  rewrite <- list_fmap_compose. apply list_fmap_ext.
  intros _ row _. by apply process_row_idem.
Qed.

(** *** Roll keys *)

Lemma append_cons c (s t : string) : String c s +:+ t = String c (s +:+ t).
Proof. reflexivity. Qed.

Lemma append_empty (t : string) : "" +:+ t = t.
Proof. reflexivity. Qed.

Lemma take_digits_split s :
  exists post,
    s = PyStr.take_digits s +:+ post
    /\ PyStr.all_digits (PyStr.take_digits s) = true
    /\ PyStr.starts_with_digit post = false.
Proof.
  induction s as [|c s (post & Hs & Hall & Hpost)]; cbn [PyStr.take_digits].
  - by exists "".
  - destruct (PyStr.isdigit c) eqn:Hc.
    + exists post. rewrite append_cons, <- Hs. cbn [PyStr.all_digits].
      by rewrite Hc, Hall.
    + exists (String c s). cbn [PyStr.starts_with_digit]. by rewrite Hc.
Qed.

Lemma search_digits_spec s :
  match PyStr.search_digits s with
  | Some run =>
      exists pre post,
        s = pre +:+ run +:+ post
        /\ PyStr.no_digit pre = true
        /\ run ≠ ""
        /\ PyStr.all_digits run = true
        /\ PyStr.starts_with_digit post = false
  | None => PyStr.no_digit s = true
  end.
Proof.
  induction s as [|c s IH]; cbn [PyStr.search_digits]; [done|].
  destruct (PyStr.isdigit c) eqn:Hc.
  - destruct (take_digits_split (String c s)) as (post & Hs & Hall & Hpost).
    exists "", post. rewrite append_empty. repeat split; try done.
    cbn [PyStr.take_digits]. by rewrite Hc.
  - destruct (PyStr.search_digits s) as [run|].
    + destruct IH as (pre & post & -> & Hpre & ? & ? & ?).
      exists (String c pre), post. rewrite append_cons.
      repeat split; try done. cbn [PyStr.no_digit]. by rewrite Hc, Hpre.
    + cbn [PyStr.no_digit]. by rewrite Hc, IH.
Qed.

Lemma int_go_decimal s :
  PyStr.all_digits s = true ->
  forall acc,
    PyStr.int_go acc s
    = Some (acc * 10 ^ Z.of_nat (String.length s) + PyStr.decimal s).
Proof.
  induction s as [|c s IH]; cbn [PyStr.all_digits PyStr.int_go]; intros H acc.
  - cbn. f_equal. lia.
  - apply andb_true_iff in H as [Hc Hs]. rewrite Hc, (IH Hs).
    cbn [PyStr.decimal String.length]. f_equal.
    rewrite Nat2Z.inj_succ, Z.pow_succ_r by lia. lia.
Qed.

Lemma int_decimal s :
  s ≠ "" -> PyStr.all_digits s = true -> PyStr.int s = Some (PyStr.decimal s).
Proof.
  intros Hne Hall. destruct s as [|c s]; [done|]. unfold PyStr.int.
  rewrite int_go_decimal by done. f_equal; lia.
Qed.


(** *** Presence flags *)

Lemma session_label_1 : session_label 1 = "Session 1".
Proof. by vm_compute. Qed.
Lemma session_label_2 : session_label 2 = "Session 2".
Proof. by vm_compute. Qed.
Lemma session_label_3 : session_label 3 = "Session 3".
Proof. by vm_compute. Qed.
Lemma session_label_4 : session_label 4 = "Session 4".
Proof. by vm_compute. Qed.

Ltac session_cases H :=
  unfold SESSION_NUMS in H; cbn [seq] in H;
  repeat (apply elem_of_cons in H as [->|H]); [| | | |by apply elem_of_nil in H].

Ltac map_lookup :=
  repeat (rewrite lookup_insert_eq || rewrite lookup_insert_ne by done).

Lemma attendance_record_session row session_num :
  session_num ∈ SESSION_NUMS ->
  attendance_record row !! session_label session_num
  = Some (VBool (normalize_presence (presence_cell row session_num))).
Proof.
  intros H. unfold attendance_record. cbn [foldl SESSION_NUMS seq].
  rewrite session_label_1, session_label_2, session_label_3, session_label_4.
  session_cases H;
    rewrite ?session_label_1, ?session_label_2, ?session_label_3,
      ?session_label_4; by map_lookup.
Qed.

Lemma attendance_record_roll row :
  attendance_record row !! "Roll No."
  = Some (VStr (PyStr.strip (default "" (row !! 0%nat)))).
Proof.
  unfold attendance_record. cbn [foldl SESSION_NUMS seq].
  rewrite session_label_1, session_label_2, session_label_3, session_label_4.
  by map_lookup.
Qed.

(** C8: [normalize_presence] is true exactly on the numbers that differ
    from zero and on the strings whose trimmed lower-case form is one of
    p, present, yes, y, 1, attended, true; the listed samples come out
    accordingly; and a session whose cell index 3 + (n-1)*2 lies beyond the
    end of an attendance row is recorded as absent. *)
Theorem normalize_presence_spec :
  (forall v,
      normalize_presence v = true
      <-> (is_number v = true /\ nonzero v = true)
          \/ (exists s, v = VStr s
                        /\ PyStr.lower (PyStr.strip s) ∈ PRESENT_WORDS))
  /\ Forall (fun v => normalize_presence v = true)
            [VStr "P"; VStr "Yes"; VStr "1"; VFloat float_one;
             VStr "attended"]
  /\ Forall (fun v => normalize_presence v = false)
            [VStr ""; VStr "0"; VInt 0; VStr "absent"; VNone]
  /\ (forall (row : list string) (session_num : nat),
         session_num ∈ SESSION_NUMS ->
         (length row <= 3 + (session_num - 1) * 2)%nat ->
         presence_cell row session_num = VNone
         /\ attendance_record row !! session_label session_num
            = Some (VBool false)).
Proof.
  split; [|split; [|split]].
  - intros v. destruct v as [|b|z|f|s]; cbn [normalize_presence is_number].
    + split; [done|]. intros [[? _]|(s & ? & _)]; done.
    + split; [by left|]. intros [[_ ?]|(s & ? & _)]; done.
    + split; [by left|]. intros [[_ ?]|(s & ? & _)]; done.
    + split; [by left|]. intros [[_ ?]|(s & ? & _)]; done.
    + cbn [py_str]. rewrite bool_decide_eq_true. split.
      * intros H. right. by exists s.
      * intros [[? _]|(s' & [= <-] & ?)]; done.
  - repeat constructor.
  - repeat constructor.
  - intros row session_num Hn Hlen.
    assert (Hcell : presence_cell row session_num = VNone).
    { unfold presence_cell, att_idx.
      destruct (Nat.ltb_spec (3 + (session_num - 1) * 2) (length row));
        [lia|done]. }
    split; [done|]. by rewrite attendance_record_session, Hcell.
Qed.

(** *** The attendance loader *)

Lemma is_header_row_spec row :
  is_header_row row = true
  <-> exists i c,
        (i < 3)%nat /\ row !! i = Some c
        /\ PyStr.startswith "roll" (PyStr.lower (PyStr.strip c)) = true.
Proof.
  unfold is_header_row. rewrite andb_true_iff, existsb_exists. split.
  - intros (_ & c & Hin & Hc). apply list_elem_of_In in Hin.
    apply list_elem_of_lookup in Hin as [i Hi].
    apply lookup_take_Some in Hi as [Hi Hlt]. by exists i, c.
  - intros (i & c & Hlt & Hi & Hc). split.
    + apply Nat.leb_le. apply lookup_lt_Some in Hi. lia.
    + exists c. split; [|done]. apply list_elem_of_In.
      apply list_elem_of_lookup. exists i. by apply lookup_take_Some.
Qed.

Lemma find_header_Some csv h :
  find_header csv = Some h
  <-> exists hrow,
        csv !! h = Some hrow /\ is_header_row hrow = true
        /\ forall j row, (j < h)%nat -> csv !! j = Some row ->
                         is_header_row row = false.
Proof.
  unfold find_header. split.
  - destruct (list_find _ csv) as [[i hrow]|] eqn:Hf; [|done].
    intros [= <-]. apply list_find_Some in Hf as (Hi & Hh & Hfirst).
    exists hrow. repeat split; try done. intros j row Hj Hrow.
    specialize (Hfirst j row Hrow Hj). by destruct (is_header_row row).
  - intros (hrow & Hi & Hh & Hfirst).
    assert (Hf : list_find (fun row => is_header_row row = true) csv
                 = Some (h, hrow)).
    { apply list_find_Some. repeat split; try done.
      intros j row Hrow Hj. by rewrite (Hfirst j row Hj Hrow). }
    by rewrite Hf.
Qed.

Lemma find_header_None csv :
  find_header csv = None
  <-> forall row, row ∈ csv -> is_header_row row = false.
Proof.
  unfold find_header. split.
  - destruct (list_find _ csv) as [[i hrow]|] eqn:Hf; [done|].
    intros _ row Hrow. apply list_find_None in Hf.
    rewrite Forall_forall in Hf. specialize (Hf row Hrow).
    by destruct (is_header_row row).
  - intros H.
    assert (Hf : list_find (fun row => is_header_row row = true) csv = None).
    { apply list_find_None. apply Forall_forall. intros row Hrow.
      by rewrite (H row Hrow). }
    by rewrite Hf.
Qed.

Lemma parse_attendance_spec csv h :
  find_header csv = Some h ->
  parse_attendance csv =
    match cleaned_rows (drop (h + 3) csv) with
    | [] => Raise (KeyError "Roll No.")
    | data =>
        Ok {| columns := RECORD_COLUMNS ++ [ROLL_KEY];
              rows := keyed_record <$> data |}
    end.
Proof.
  intros Hh. unfold parse_attendance. rewrite Hh.
  destruct (cleaned_rows (drop (h + 3) csv)) as [|row data] eqn:Hdata.
  - done.
  - set (recs := attendance_record <$> row :: data).
    unfold getitem.
    rewrite decide_True by (apply (bool_decide_unpack _); by vm_compute).
    cbn [mbind result_bind]. f_equal.
    assert (HD : DataFrame_of_records RECORD_COLUMNS recs
                 = {| columns := RECORD_COLUMNS; rows := recs |}) by done.
    rewrite HD.
    change (rows {| columns := RECORD_COLUMNS; rows := recs |}) with recs.
    set (df := {| columns := RECORD_COLUMNS; rows := recs |}).
    assert (Hrows : rows (setitem df ROLL_KEY
               ((key_cell ∘ extract_roll_number)
                  <$> ((fun r => cell r "Roll No.") <$> recs)))
             = keyed_record <$> row :: data).
    { change recs with (rows df) at 1. rewrite setitem_apply_rows.
      unfold df, recs. cbn [rows]. rewrite <- list_fmap_compose.
      apply list_fmap_ext. intros _ r _. cbn [compose].
      unfold keyed_record, cell. by rewrite attendance_record_roll. }
    rewrite <- Hrows. unfold setitem. f_equal.
  Qed.

(** C6: the header is the first row with a cell among its first three
    that starts with "roll" once trimmed and lower-cased; without such a
    row the loader raises the header error; otherwise the records are made
    from the rows at index header + 3 onwards that have at least three
    cells, in order (and the loader raises when there is none). *)
Theorem load_attendance_header w path csv :
  files w !! path = Some (CsvFile csv) ->
  (forall row,
      is_header_row row = true
      <-> exists i c,
            (i < 3)%nat /\ row !! i = Some c
            /\ PyStr.startswith "roll" (PyStr.lower (PyStr.strip c)) = true)
  /\ ((forall row, row ∈ csv -> is_header_row row = false) ->
      load_attendance w path = Raise HeaderNotFound)
  /\ (forall h hrow,
         csv !! h = Some hrow ->
         is_header_row hrow = true ->
         (forall j row, (j < h)%nat -> csv !! j = Some row ->
                        is_header_row row = false) ->
         find_header csv = Some h
         /\ match filter (fun row => (3 <= length row)%nat)
                         (drop (h + 3) csv) with
            | [] => load_attendance w path = Raise (KeyError "Roll No.")
            | data =>
                exists df,
                  load_attendance w path = Ok df
                  /\ rows df =
                       (fun row =>
                          <[ROLL_KEY :=
                              key_cell
                                (extract_roll_number
                                   (VStr (PyStr.strip
                                            (default "" (row !! 0%nat)))))]>
                            (attendance_record row)) <$> data
            end).
Proof.
  intros Hfile.
  assert (Hload : load_attendance w path = parse_attendance csv).
  { unfold load_attendance, read_csv_rows. by rewrite Hfile. }
  rewrite Hload. split; [apply is_header_row_spec|]. split.
  - intros Hnone. apply find_header_None in Hnone.
    unfold parse_attendance. by rewrite Hnone.
  - intros h hrow Hh Hrow Hfirst.
    assert (Hfind : find_header csv = Some h).
    { apply find_header_Some. by exists hrow. }
    split; [done|]. rewrite (parse_attendance_spec csv h Hfind).
    unfold cleaned_rows.
    destruct (filter _ (drop (h + 3) csv)) as [|row data]; [done|].
    eexists. split; [done|]. done.
Qed.

(** *** The attendance lookup *)



Lemma parse_attendance_Ok csv df :
  parse_attendance csv = Ok df ->
  df = {| columns := RECORD_COLUMNS ++ [ROLL_KEY];
          rows := keyed_record <$> data_rows csv |}.
Proof.
  intros H. unfold data_rows.
  destruct (find_header csv) as [h|] eqn:Hh.
  - rewrite (parse_attendance_spec csv h Hh) in H.
    destruct (cleaned_rows (drop (h + 3) csv)); [done|]. by injection H.
  - unfold parse_attendance in H. by rewrite Hh in H.
Qed.

Lemma frame_columns :
  RECORD_COLUMNS ++ [ROLL_KEY] =
    ["Roll No."; "Name"; "Surname"; "Session 1"; "Session 2"; "Session 3";
     "Session 4"; "__roll_num_key"].
Proof. by vm_compute. Qed.

Lemma session_label_column session_num :
  session_num ∈ SESSION_NUMS ->
  session_label session_num
    ∈ filter (fun x => x ≠ ROLL_KEY) (RECORD_COLUMNS ++ [ROLL_KEY])
  /\ session_label session_num ≠ ROLL_KEY.
Proof.
  intros H. session_cases H;
    (split; [apply (bool_decide_unpack _); by vm_compute|by vm_compute]).
Qed.


(** *** File names *)









(** *** The loop over the directory *)







(** *** More on strings and roll keys *)

Lemma append_assoc (a b c : string) : (a +:+ b) +:+ c = a +:+ b +:+ c.
Proof.
  induction a as [|x a IH]; [done|]. by rewrite !append_cons, IH.
Qed.

Lemma append_empty_r (s : string) : s +:+ "" = s.
Proof. induction s as [|x s IH]; [done|]. by rewrite append_cons, IH. Qed.

Lemma rev_app_acc s acc : String.rev_app s acc = String.rev s +:+ acc.
Proof.
  unfold String.rev. revert acc.
  induction s as [|x s IH]; intros acc; cbn [String.rev_app]; [done|].
  rewrite (IH (String x acc)), (IH (String x "")).
  by rewrite append_assoc, append_cons, append_empty.
Qed.

Lemma rev_cons x s : String.rev (String x s) = String.rev s +:+ String x "".
Proof. unfold String.rev at 1. cbn [String.rev_app]. apply rev_app_acc. Qed.

Lemma rev_append a b : String.rev (a +:+ b) = String.rev b +:+ String.rev a.
Proof.
  induction a as [|x a IH].
  - by rewrite append_empty, append_empty_r.
  - by rewrite append_cons, !rev_cons, IH, append_assoc.
Qed.

Lemma rev_involutive s : String.rev (String.rev s) = s.
Proof.
  induction s as [|x s IH]; [done|].
  by rewrite rev_cons, rev_append, IH.
Qed.

Lemma no_digit_append a b :
  PyStr.no_digit (a +:+ b) = PyStr.no_digit a && PyStr.no_digit b.
Proof.
  induction a as [|x a IH]; [done|].
  rewrite append_cons. cbn [PyStr.no_digit]. by rewrite IH, andb_assoc.
Qed.

Lemma no_digit_rev s : PyStr.no_digit (String.rev s) = PyStr.no_digit s.
Proof.
  induction s as [|x s IH]; [done|].
  rewrite rev_cons, no_digit_append, IH. cbn [PyStr.no_digit].
  by rewrite andb_true_r, andb_comm.
Qed.

Lemma space_not_digit c : PyStr.isspace c = true -> PyStr.isdigit c = false.
Proof.
  destruct c as [[] [] [] [] [] [] [] []]; vm_compute; intros H;
    (reflexivity || discriminate H).
Qed.

Lemma lstrip_split s :
  exists ws, s = ws +:+ PyStr.lstrip s /\ PyStr.no_digit ws = true.
Proof.
  induction s as [|x s (ws & Hs & Hws)]; cbn [PyStr.lstrip].
  - by exists "".
  - destruct (PyStr.isspace x) eqn:Hx.
    + exists (String x ws). rewrite append_cons, <- Hs. split; [done|].
      cbn [PyStr.no_digit]. by rewrite (space_not_digit x Hx), Hws.
    + by exists "".
Qed.

Lemma rstrip_split s :
  exists ws, s = PyStr.rstrip s +:+ ws /\ PyStr.no_digit ws = true.
Proof.
  destruct (lstrip_split (String.rev s)) as (ws & Hs & Hws).
  exists (String.rev ws). unfold PyStr.rstrip. split.
  - by rewrite <- rev_append, <- Hs, rev_involutive.
  - by rewrite no_digit_rev.
Qed.

Lemma search_digits_skip ws t :
  PyStr.no_digit ws = true ->
  PyStr.search_digits (ws +:+ t) = PyStr.search_digits t.
Proof.
  induction ws as [|x ws IH]; [done|]. cbn [PyStr.no_digit].
  intros [Hx Hws]%andb_true_iff. rewrite append_cons.
  cbn [PyStr.search_digits]. apply negb_true_iff in Hx. rewrite Hx. auto.
Qed.

Lemma take_digits_append a b :
  PyStr.starts_with_digit b = false ->
  PyStr.take_digits (a +:+ b) = PyStr.take_digits a.
Proof.
  intros Hb. induction a as [|x a IH].
  - rewrite append_empty. destruct b as [|y b]; [done|].
    cbn [PyStr.starts_with_digit] in Hb. cbn [PyStr.take_digits].
    by rewrite Hb.
  - rewrite append_cons. cbn [PyStr.take_digits]. by rewrite IH.
Qed.

Lemma no_digit_start ws :
  PyStr.no_digit ws = true -> PyStr.starts_with_digit ws = false.
Proof.
  destruct ws as [|x ws]; [done|]. cbn.
  intros [Hx _]%andb_true_iff. by apply negb_true_iff.
Qed.

Lemma search_digits_trail t ws :
  PyStr.no_digit ws = true ->
  PyStr.search_digits (t +:+ ws) = PyStr.search_digits t.
Proof.
  intros Hws. induction t as [|x t IH].
  - rewrite append_empty. pose proof (search_digits_spec ws) as H.
    destruct (PyStr.search_digits ws) as [run|]; [|done].
    destruct H as (pre & post & -> & Hpre & Hne & Hall & _).
    rewrite !no_digit_append in Hws.
    apply andb_true_iff in Hws as [_ [Hrun _]%andb_true_iff].
    destruct run as [|y run]; [done|]. cbn in Hrun, Hall.
    apply andb_true_iff in Hall as [Hy _].
    apply andb_true_iff in Hrun as [Hny _]. by rewrite Hy in Hny.
  - rewrite append_cons. cbn [PyStr.search_digits]. rewrite IH.
    destruct (PyStr.isdigit x); [|done].
    rewrite <- append_cons, take_digits_append; [done|].
    by apply no_digit_start.
Qed.

(** X1: trimming a roll token does not change its key, so the key the
    loader computes from the trimmed roll cell is the key of the raw cell. *)
Theorem roll_key_ignores_surrounding_whitespace (s : string) :
  extract_roll_number (VStr (PyStr.strip s)) = extract_roll_number (VStr s).
Proof.
  unfold extract_roll_number. cbn [isna py_str].
  destruct (lstrip_split s) as (ws1 & Hs1 & Hws1).
  destruct (rstrip_split (PyStr.lstrip s)) as (ws2 & Hs2 & Hws2).
  assert (Hsearch : PyStr.search_digits s
                    = PyStr.search_digits (PyStr.strip s)).
  { rewrite Hs1 at 1. rewrite search_digits_skip by done.
    rewrite Hs2 at 1. by rewrite search_digits_trail. }
  by rewrite Hsearch.
Qed.

Lemma pretty_N_char_digit d :
  (d < 10)%N ->
  PyStr.isdigit (pretty_N_char d) = true
  /\ PyStr.digit_value (pretty_N_char d) = Z.of_N d.
Proof.
  intros Hd.
  assert (d = 0 \/ d = 1 \/ d = 2 \/ d = 3 \/ d = 4 \/ d = 5 \/ d = 6
          \/ d = 7 \/ d = 8 \/ d = 9)%N as Hcases by lia.
  decompose [or] Hcases; subst; by vm_compute.
Qed.

Lemma pretty_N_go_decimal x :
  forall s,
    PyStr.all_digits s = true ->
    PyStr.all_digits (pretty_N_go x s) = true
    /\ PyStr.decimal (pretty_N_go x s)
       = Z.of_N x * 10 ^ Z.of_nat (String.length s) + PyStr.decimal s
    /\ (s ≠ "" \/ (0 < x)%N -> pretty_N_go x s ≠ "").
Proof.
  induction (N.lt_wf_0 x) as [x _ IH]. intros s Hs.
  destruct (decide (0 < x)%N) as [Hx|Hx].
  - rewrite pretty_N_go_step by done.
    destruct (pretty_N_char_digit (x `mod` 10)) as [Hd Hv].
    { by apply N.mod_lt. }
    destruct (IH (x `div` 10)%N (N.div_lt x 10 Hx eq_refl)
                 (String (pretty_N_char (x `mod` 10)) s))
      as (Hall & Hdec & Hne).
    { cbn [PyStr.all_digits]. by rewrite Hd, Hs. }
    split; [done|]. split.
    + rewrite Hdec. cbn [PyStr.decimal String.length]. rewrite Hv.
      rewrite Nat2Z.inj_succ, Z.pow_succ_r by lia.
      pose proof (N.div_mod x 10). rewrite N2Z.inj_div, N2Z.inj_mod.
      pose proof (Z.div_mod (Z.of_N x) 10). change (Z.of_N 10) with 10.
      lia.
    + intros _. apply Hne. by left.
  - assert (x = 0%N) as -> by lia. rewrite pretty_N_go_0.
    split; [done|]. split; [lia|]. intros [?|?]; [done|lia].
Qed.

Lemma search_digits_all s :
  s ≠ "" -> PyStr.all_digits s = true -> PyStr.search_digits s = Some s.
Proof.
  intros Hne Hall. destruct s as [|x s]; [done|].
  cbn [PyStr.search_digits]. cbn [PyStr.all_digits] in Hall.
  apply andb_true_iff in Hall as [Hx Hs]. rewrite Hx. f_equal.
  cbn [PyStr.take_digits]. rewrite Hx. f_equal.
  clear Hne Hx. induction s as [|y s IH]; [done|].
  cbn [PyStr.all_digits] in Hs. apply andb_true_iff in Hs as [Hy Hs].
  cbn [PyStr.take_digits]. by rewrite Hy, IH.
Qed.

Lemma extract_positive p :
  PyStr.search_digits (pretty (N.pos p)) = Some (pretty (N.pos p))
  /\ PyStr.int (pretty (N.pos p)) = Some (Z.pos p).
Proof.
  assert (Hp : pretty (N.pos p) = pretty_N_go (N.pos p) "") by done.
  rewrite Hp.
  destruct (pretty_N_go_decimal (N.pos p) "" eq_refl) as (Hall & Hdec & Hne).
  assert (pretty_N_go (N.pos p) "" ≠ "") by (apply Hne; right; lia).
  split; [by apply search_digits_all|].
  rewrite int_decimal by done. rewrite Hdec. cbn. f_equal. lia.
Qed.

(** X2: an integer roll cell gives its absolute value as key: the digits of
    [str] are read back, and a minus sign is not part of the digit run. *)
Theorem extract_roll_number_of_int (z : Z) :
  extract_roll_number (VInt z) = Some (Z.abs z).
Proof.
  unfold extract_roll_number. cbn [isna py_str].
  destruct z as [|p|p].
  - by vm_compute.
  - change (pretty (Z.pos p)) with (pretty (N.pos p)).
    destruct (extract_positive p) as [-> ->]. done.
  - change (pretty (Z.neg p)) with ("-" +:+ pretty (N.pos p)).
    rewrite (search_digits_skip "-") by done.
    destruct (extract_positive p) as [-> ->]. done.
Qed.

(** *** More on find_roll_column *)

Lemma alias_mentions_roll a c :
  a ∈ ROLL_ALIASES -> alias_match a c = true -> mentions_roll c = true.
Proof.
  revert a.
  apply (proj1 (Forall_forall
                  (fun a => alias_match a c = true -> mentions_roll c = true)
                  ROLL_ALIASES)).
  repeat constructor; unfold alias_match, mentions_roll;
    intros H; apply bool_decide_eq_true_1 in H; rewrite H; by vm_compute.
Qed.

Lemma find_none_iff {A} (f : A -> bool) (l : list A) :
  List.find f l = None <-> forall x, x ∈ l -> f x = false.
Proof.
  split.
  - intros H x Hx. apply (find_none f l H). by apply list_elem_of_In.
  - intros H. exact (find_app_none f [] l H).
Qed.



(** X3: [find_roll_column] finds no column exactly when no label mentions
    "roll" once trimmed and lower-cased (every alias does); a label it
    returns is a label of the table that mentions "roll". *)
Theorem find_roll_column_None_iff (cols : list string) :
  (find_roll_column cols = None
   <-> forall c, c ∈ cols -> mentions_roll c = false)
  /\ (forall c, find_roll_column cols = Some c ->
                c ∈ cols /\ mentions_roll c = true).
Proof.
  assert (Hsome : forall c, find_roll_column cols = Some c ->
                            c ∈ cols /\ mentions_roll c = true).
  { intros c Hc. unfold find_roll_column in Hc.
    destruct (first_alias ROLL_ALIASES cols) as [col|] eqn:Ha.
    - injection Hc as ->.
      apply first_alias_elem_of in Ha as (Hin & a & Ha & Hm).
      split; [done|]. by apply (alias_mentions_roll a).
    - by apply find_elem_of in Hc. }
  split; [|exact Hsome]. split.
  - intros Hnone c Hc. unfold find_roll_column in Hnone.
    destruct (first_alias ROLL_ALIASES cols); [done|].
    by apply (proj1 (find_none_iff _ _) Hnone).
  - intros H. destruct (find_roll_column cols) as [c|] eqn:Hc; [|done].
    destruct (Hsome c eq_refl) as [Hin Hm]. by rewrite (H c Hin) in Hm.
Qed.


(** *** The shape of the output table *)

Lemma filter_ext_in {A} (P Q : A -> Prop) `{forall x, Decision (P x)}
    `{forall x, Decision (Q x)} (l : list A) :
  (forall x, x ∈ l -> P x <-> Q x) -> filter P l = filter Q l.
Proof.
  induction l as [|x l IH]; intros HPQ; [done|].
  rewrite !filter_cons, IH by (intros y Hy; apply HPQ; by right).
  pose proof (HPQ x (list_elem_of_here _ _)).
  destruct (decide (P x)), (decide (Q x)); tauto || done.
Qed.

Lemma foldl_add_label_filter cs :
  NoDup cs ->
  forall cols,
    foldl add_label cols cs = cols ++ filter (fun c => c ∉ cols) cs.
Proof.
  induction 1 as [|c cs Hc _ IH]; intros cols; cbn [foldl].
  - by rewrite app_nil_r.
  - rewrite IH, filter_cons. unfold add_label.
    destruct (decide (c ∈ cols)) as [Hin|Hin].
    + by rewrite decide_False by tauto.
    + rewrite decide_True by done. rewrite <- app_assoc. cbn [app].
      do 2 f_equal. apply filter_ext_in. intros x Hx.
      rewrite elem_of_app, list_elem_of_singleton.
      assert (x ≠ c) by (intros ->; done). tauto.
Qed.

Lemma out_columns_order cols :
  out_columns cols =
    filter (fun c => c ≠ ROLL_KEY) cols
    ++ filter (fun c => c ∉ cols) MARK_COLUMNS.
Proof.
  unfold out_columns.
  rewrite (foldl_add_label_filter _ NoDup_MARK_COLUMNS), filter_app.
  f_equal.
  - unfold add_label. case_decide; [done|].
    by rewrite filter_app, filter_cons_False, filter_nil, app_nil_r by tauto.
  - rewrite filter_all.
    + apply filter_ext_in. intros x Hx. rewrite elem_of_add_label.
      assert (x ≠ ROLL_KEY) by (intros ->; by apply ROLL_KEY_not_mark).
      tauto.
    + intros x [_ Hx]%list_elem_of_filter ->. by apply ROLL_KEY_not_mark.
Qed.

(** X5: the output keeps the input labels in their order, without the
    helper label, followed by the rubric labels and Total that the input
    lacked, in rubric order. *)
Theorem output_columns_in_order excel_path attendance_df session_col exp_df
    out :
  process_table excel_path attendance_df session_col exp_df = Ok out ->
  columns out =
    filter (fun c => c ≠ ROLL_KEY) (columns exp_df)
    ++ filter (fun c => c ∉ columns exp_df)
              ((fst <$> PARAM_MARKS) ++ [TOTAL_COL_NAME]).
Proof.
  intros (roll_col & m & _ & _ & ->)%process_table_Ok_inv.
  apply out_columns_order.
Qed.

(** X6: the transformation keeps the number of rows and every cell under a
    label that is neither a rubric label, nor Total, nor the helper label:
    names, roll numbers and any other column come out as they went in. *)
Theorem other_cells_unchanged excel_path attendance_df session_col exp_df
    out :
  process_table excel_path attendance_df session_col exp_df = Ok out ->
  length (rows out) = length (rows exp_df)
  /\ forall idx row c,
       rows exp_df !! idx = Some row ->
       c ∉ (fst <$> PARAM_MARKS) ++ [TOTAL_COL_NAME] ->
       c ≠ ROLL_KEY ->
       exists row', rows out !! idx = Some row' /\ row' !! c = row !! c.
Proof.
  intros (roll_col & m & _ & _ & ->)%process_table_Ok_inv. cbn [rows].
  split; [by rewrite length_fmap|].
  intros idx row c Hrow Hc Hne. rewrite list_lookup_fmap, Hrow.
  eexists. split; [done|].
  rewrite process_row_lookup. unfold expected_cell.
  rewrite decide_False by done.
  rewrite decide_False by (intros [? _]; done).
  destruct (extract_roll_number _) as [k|]; [|done].
  destruct (m !! k) as [looked_up|]; [|done].
  by rewrite (proj2 (mark_value_None _ c)).
Qed.



(** X9: the transformation turns a rectangular table into a rectangular
    one: in the output every row has a cell under exactly the output
    labels. *)
Theorem process_table_rectangular excel_path attendance_df session_col exp_df
    out :
  rectangular exp_df ->
  process_table excel_path attendance_df session_col exp_df = Ok out ->
  rectangular out.
Proof.
  intros Hrect (roll_col & m & _ & _ & ->)%process_table_Ok_inv.
  intros row' Hrow' c. cbn [rows columns] in *.
  apply list_elem_of_fmap in Hrow' as (row & -> & Hrow).
  specialize (Hrect row Hrow c).
  rewrite process_row_lookup, elem_of_out_columns. unfold expected_cell.
  destruct (decide (c = ROLL_KEY)) as [->|Hne].
  { split; [by intros []|tauto]. }
  destruct (decide (c ∈ MARK_COLUMNS)) as [Hm|Hm].
  - assert (Hsome : forall present, is_Some (mark_value present c)).
    { intros present.
      destruct (mark_value present c) eqn:Hv; [done|].
      by apply mark_value_None in Hv. }
    split; [tauto|]. intros _.
    assert (Hun : is_Some
              (if decide (c ∈ MARK_COLUMNS
                          /\ c ∉ add_label (columns exp_df) ROLL_KEY)
               then Some (VInt 0) else row !! c)).
    { case_decide as Hd; [done|]. apply Hrect.
      destruct (decide (c ∈ add_label (columns exp_df) ROLL_KEY))
        as [Hin|Hin]; [|tauto].
      apply elem_of_add_label in Hin. tauto. }
    destruct (extract_roll_number _) as [k|]; [|done].
    destruct (m !! k) as [looked_up|]; [|done].
    by destruct (Hsome (normalize_presence looked_up)) as [x ->].
  - rewrite decide_False by tauto.
    assert (Hiff : is_Some (row !! c)
                   <-> c ≠ ROLL_KEY /\ (c ∈ columns exp_df \/ c ∈ MARK_COLUMNS))
      by tauto.
    destruct (extract_roll_number _) as [k|]; [|done].
    destruct (m !! k) as [looked_up|]; [|done].
    by rewrite (proj2 (mark_value_None _ c)).
Qed.

(** *** The attendance frame and its lookup *)

Lemma keyed_record_labels row c :
  is_Some (keyed_record row !! c) <-> c ∈ RECORD_COLUMNS ++ [ROLL_KEY].
Proof.
  rewrite frame_columns. unfold keyed_record, attendance_record.
  cbn [foldl SESSION_NUMS seq].
  rewrite session_label_1, session_label_2, session_label_3, session_label_4.
  rewrite !lookup_insert_is_Some'. unfold ROLL_KEY.
  rewrite !elem_of_cons, elem_of_nil.
  pose proof (lookup_empty_is_Some (M := gmap string) (A := value) c).
  intuition (subst; auto).
Qed.


Lemma keyed_record_session row session_num :
  session_num ∈ SESSION_NUMS ->
  keyed_record row !! session_label session_num
  = Some (VBool (normalize_presence (presence_cell row session_num))).
Proof.
  intros Hn. destruct (session_label_column _ Hn) as [_ Hne].
  unfold keyed_record. rewrite lookup_insert_ne by done.
  by apply attendance_record_session.
Qed.


(** X10: a frame returned by the loader has the eight labels Roll No.,
    Name, Surname, Session 1 to 4 and the helper label, in that order, has
    one row per data row of the file and at least one, is rectangular, and
    holds a boolean under every session label. *)
Theorem loaded_frame_shape csv df :
  parse_attendance csv = Ok df ->
  columns df
  = ["Roll No."; "Name"; "Surname"; "Session 1"; "Session 2"; "Session 3";
     "Session 4"; "__roll_num_key"]
  /\ length (rows df) = length (data_rows csv)
  /\ (0 < length (rows df))%nat
  /\ rectangular df
  /\ forall row session_num,
       row ∈ rows df -> session_num ∈ SESSION_NUMS ->
       exists b, row !! session_label session_num = Some (VBool b).
Proof.
  intros Hdf. pose proof Hdf as ->%parse_attendance_Ok. cbn [columns rows].
  split; [apply frame_columns|]. split; [by rewrite length_fmap|].
  split; [|split].
  - rewrite length_fmap. unfold data_rows.
    destruct (find_header csv) as [h|] eqn:Hh.
    + rewrite (parse_attendance_spec csv h Hh) in Hdf.
      destruct (cleaned_rows (drop (h + 3) csv)); [done|]. cbn. lia.
    + unfold parse_attendance in Hdf. by rewrite Hh in Hdf.
  - intros row' (row & -> & _)%list_elem_of_fmap c. cbn [columns].
    apply keyed_record_labels.
  - intros row' session_num (row & -> & _)%list_elem_of_fmap Hn.
    eexists. by apply keyed_record_session.
Qed.

Lemma to_dict_domain key_col val_col rs :
  forall (m0 : gmap Z value) k,
    is_Some (foldl (dict_step key_col val_col) m0 rs !! k)
    <-> is_Some (m0 !! k)
        \/ exists r, r ∈ rs /\ dict_key (cell r key_col) = Some k.
Proof.
  induction rs as [|r rs IH]; intros m0 k; cbn [foldl].
  - split; [by left|]. intros [?|(r & Hr & _)]; [done|].
    by apply elem_of_nil in Hr.
  - rewrite IH. unfold dict_step at 1.
    destruct (dict_key (cell r key_col)) as [k'|] eqn:Hk.
    + rewrite lookup_insert_is_Some'. split.
      * intros [[->|?]|(r' & Hr' & Hk')].
        -- right. exists r. split; [left|done].
        -- by left.
        -- right. exists r'. split; [by right|done].
      * intros [?|(r' & [->|Hr']%elem_of_cons & Hk')].
        -- left. by right.
        -- left. left. congruence.
        -- right. by exists r'.
    + split.
      * intros [?|(r' & Hr' & Hk')]; [by left|].
        right. exists r'. split; [by right|done].
      * intros [?|(r' & [->|Hr']%elem_of_cons & Hk')]; [by left|congruence|].
        right. by exists r'.
Qed.

(** X11: the lookup built from a frame knows a key exactly when some row of
    the frame has that key; rows without a key add nothing. *)
Theorem attendance_map_domain attendance_df key_col val_col m :
  set_index_to_dict attendance_df key_col val_col = Ok m ->
  forall k,
    is_Some (m !! k)
    <-> exists r, r ∈ rows attendance_df
                  /\ dict_key (cell r key_col) = Some k.
Proof.
  unfold set_index_to_dict. repeat case_decide; try done.
  intros [= <-] k. rewrite to_dict_domain.
  pose proof (lookup_empty_is_Some (M := gmap Z) (A := value) k). tauto.
Qed.




(** *** What a run does to the files *)

Lemma process_experiment_Ok_inv w excel_path attendance_df session_col
    output_path w' l :
  process_experiment w excel_path attendance_df session_col output_path
  = Ok (w', l) ->
  exists exp_df t,
    read_excel w excel_path = Ok exp_df
    /\ process_table excel_path attendance_df session_col exp_df = Ok t
    /\ (default excel_path (truthy output_path) ∉ locked w)
    /\ w' = {| files := <[default excel_path (truthy output_path)
                          := ExcelFile t]> (files w);
               listing := listing w;
               locked := locked w |}
    /\ l = Processed (OsPath.basename excel_path) session_col
             (default excel_path (truthy output_path)).
Proof.
  unfold process_experiment.
  destruct (read_excel w excel_path) as [exp_df|]; [|done].
  cbn [mbind result_bind].
  destruct (process_table _ _ _ exp_df) as [t|] eqn:Ht; [|done].
  cbn [mbind result_bind]. unfold to_excel.
  case_decide; [done|]. cbn [mbind result_bind].
  intros [= <- <-]. by exists exp_df, t.
Qed.


Lemma process_table_rerun excel_path attendance_df session_col exp_df out :
  process_table excel_path attendance_df session_col exp_df = Ok out ->
  find_roll_column (columns exp_df) ≠ Some ROLL_KEY ->
  process_table excel_path attendance_df session_col out = Ok out.
Proof.
  intros (roll_col & m & Hroll & Hmap & ->)%process_table_Ok_inv Hne.
  assert (roll_col ≠ ROLL_KEY) by congruence.
  destruct (find_roll_column_Some _ _ Hroll) as [_ Hlike].
  rewrite (process_table_rowwise _ _ _ _ roll_col m);
    [|by apply find_roll_column_out_columns|done].
  cbn [columns rows]. rewrite out_columns_idem. do 2 f_equal.
  rewrite <- list_fmap_compose. apply list_fmap_ext.
  intros _ row _. by apply process_row_idem.
Qed.

(** X15: run in place a second time, on a workbook whose roll column is not
    the helper column, [process_experiment] succeeds again, prints the same
    line and leaves every file exactly as the first run left it. *)
Theorem process_experiment_in_place_twice w excel_path attendance_df
    session_col exp_df w' l :
  read_excel w excel_path = Ok exp_df ->
  find_roll_column (columns exp_df) ≠ Some ROLL_KEY ->
  process_experiment w excel_path attendance_df session_col None
  = Ok (w', l) ->
  process_experiment w' excel_path attendance_df session_col None
  = Ok (w', l).
Proof.
  intros Hread Hne
    (exp_df' & t & Hread' & Ht & Hlock & -> & ->)%process_experiment_Ok_inv.
  rewrite Hread in Hread'. injection Hread' as <-.
  cbn [truthy default] in *.
  unfold process_experiment, read_excel. cbn [files].
  rewrite lookup_insert_eq. cbn [mbind result_bind].
  rewrite (process_table_rerun _ _ _ _ _ Ht Hne). cbn [mbind result_bind].
  unfold to_excel. cbn [locked files listing].
  rewrite decide_False by done. cbn [mbind result_bind truthy default].
  by rewrite insert_insert_eq.
Qed.







(** X18: the marking loop, which writes into the frame while it iterates
    over it, treats every row on its own: it keeps the labels and the number
    of rows, and the row it leaves at an index is the row it would leave if
    that row were the only one of the table. *)
Theorem marking_loop_rows_independent (m : gmap Z value) (df : DataFrame) :
  columns (mark_rows m df) = columns df
  /\ length (rows (mark_rows m df)) = length (rows df)
  /\ forall idx row,
       rows df !! idx = Some row ->
       rows (mark_rows m df) !! idx
       = rows (mark_rows m {| columns := columns df; rows := [row] |})
           !! 0%nat.
Proof.
  rewrite mark_rows_spec. cbn [columns rows].
  split; [done|]. split; [by rewrite length_fmap|].
  intros idx row Hrow. rewrite mark_rows_spec. cbn [rows].
  by rewrite list_lookup_fmap, Hrow.
Qed.

End Script.

(** ** The statements on the sample data *)


(** C2 as stated fails: on a table whose roll column is the helper column,
    the first run succeeds and drops the column, and the second run finds no
    roll column. *)
Lemma idempotence_fails_on_helper_roll_column :
  (exists out,
      process_table sample_float_str "exps/experiment_1.xlsx"
        (sample_attendance sample_float_str) "Session 1" sample_helper_exp = Ok out)
  /\ process_table sample_float_str "exps/experiment_1.xlsx"
       (sample_attendance sample_float_str) "Session 1" sample_helper_exp
     ≫= process_table sample_float_str "exps/experiment_1.xlsx"
          (sample_attendance sample_float_str) "Session 1"
     = Raise (NoRollColumn "exps/experiment_1.xlsx")
  /\ process_table sample_float_str "exps/experiment_1.xlsx"
       (sample_attendance sample_float_str) "Session 1" sample_helper_exp
     ≫= process_table sample_float_str "exps/experiment_1.xlsx"
          (sample_attendance sample_float_str) "Session 1"
     ≠ process_table sample_float_str "exps/experiment_1.xlsx"
         (sample_attendance sample_float_str) "Session 1" sample_helper_exp.
Proof.
  split; [|split].
  - eexists. vm_compute. reflexivity.
  - vm_compute. reflexivity.
  - vm_compute. intros H. discriminate H.
Qed.

Lemma process_table_idempotent_witness :
  process_table sample_float_str "exps/experiment_1.xlsx" (sample_attendance sample_float_str)
    "Session 1" sample_exp
  ≫= process_table sample_float_str "exps/experiment_1.xlsx"
       (sample_attendance sample_float_str) "Session 1"
  = process_table sample_float_str "exps/experiment_1.xlsx" (sample_attendance sample_float_str)
      "Session 1" sample_exp.
Proof.
  apply (process_table_idempotent sample_float_str "exps/experiment_1.xlsx"
           (sample_attendance sample_float_str) "Session 1" sample_exp).
  vm_compute. intros H. discriminate H.
Defined.






Lemma load_attendance_header_witness :
  find_header sample_csv = Some 2%nat
  /\ exists df,
       load_attendance sample_float_str sample_world "att.csv" = Ok df
       /\ length (rows df) = 3%nat.
Proof.
  destruct (proj2 (proj2 (load_attendance_header sample_float_str
                            sample_world "att.csv" sample_csv eq_refl))
              2%nat
              ["Roll No."; "Name"; "Surname"; "Session 1"; ""; "Session 2"])
    as [Hfind Hdata].
  - vm_compute. reflexivity.
  - vm_compute. reflexivity.
  - intros j row Hj Hrow.
    destruct j as [|[|j]]; [| |lia]; vm_compute in Hrow;
      injection Hrow as <-; vm_compute; reflexivity.
  - split; [exact Hfind|].
    vm_compute filter in Hdata. destruct Hdata as (df & Hload & Hrows).
    exists df. split; [exact Hload|]. rewrite Hrows. reflexivity.
Defined.

Lemma normalize_presence_spec_witness :
  presence_cell ["15"; "Ann"; "Lee"; "yes"] 2 = VNone
  /\ attendance_record sample_float_str ["15"; "Ann"; "Lee"; "yes"]
       !! session_label 2
     = Some (VBool false).
Proof.
  apply (proj2 (proj2 (proj2 (normalize_presence_spec sample_float_str)))
           ["15"; "Ann"; "Lee"; "yes"] 2%nat).
  - apply (bool_decide_unpack _). vm_compute. exact I.
  - vm_compute. lia.
Defined.


(** ** Further statements on the sample data *)

Lemma find_roll_column_None_iff_witness :
  find_roll_column ["Name"; "Marks"] = None.
Proof.
  apply (proj1 (find_roll_column_None_iff ["Name"; "Marks"])).
  intros c Hc.
  repeat (apply elem_of_cons in Hc as [Hc|Hc]; [subst c; vm_compute; reflexivity|]).
  exfalso. revert Hc. apply not_elem_of_nil.
Defined.


Lemma output_columns_in_order_witness :
  exists out,
    process_table sample_float_str "exps/experiment_1.xlsx"
      (sample_attendance sample_float_str) "Session 1" sample_stale_exp
    = Ok out
    /\ columns out
       = ["Roll No"; "Timely completion, punctuality";
          "Performance, involvement, efficiency"; "Oral Presentation";
          "Documentation, neatness"; "Total"].
Proof.
  pose proof (output_columns_in_order sample_float_str
                "exps/experiment_1.xlsx" (sample_attendance sample_float_str)
                "Session 1" sample_stale_exp) as H.
  destruct (process_table sample_float_str "exps/experiment_1.xlsx"
              (sample_attendance sample_float_str) "Session 1"
              sample_stale_exp)
    as [out|e] eqn:Hout; [|vm_compute in Hout; discriminate Hout].
  exists out. split; [reflexivity|]. rewrite (H out eq_refl).
  vm_compute. reflexivity.
Defined.

Lemma other_cells_unchanged_witness :
  exists out row',
    process_table sample_float_str "exps/experiment_1.xlsx"
      (sample_attendance sample_float_str) "Session 1" sample_exp = Ok out
    /\ length (rows out) = 4%nat
    /\ rows out !! 0%nat = Some row'
    /\ row' !! "Name" = Some (VStr "Jane").
Proof.
  pose proof (other_cells_unchanged sample_float_str
                "exps/experiment_1.xlsx" (sample_attendance sample_float_str)
                "Session 1" sample_exp) as H.
  destruct (process_table sample_float_str "exps/experiment_1.xlsx"
              (sample_attendance sample_float_str) "Session 1" sample_exp)
    as [out|e] eqn:Hout; [|vm_compute in Hout; discriminate Hout].
  destruct (H out eq_refl) as [Hlen Hcells].
  destruct (Hcells 0%nat (sample_row (VInt 14) "Jane" 1 7) "Name")
    as (row' & Hrow' & Hname).
  - reflexivity.
  - apply (bool_decide_unpack _). vm_compute. exact I.
  - intros Heq. discriminate Heq.
  - exists out, row'. split; [reflexivity|]. split; [exact Hlen|].
    split; [exact Hrow'|]. rewrite Hname. vm_compute. reflexivity.
Defined.



Lemma process_table_rectangular_witness :
  exists out,
    process_table sample_float_str "exps/experiment_1.xlsx"
      (sample_attendance sample_float_str) "Session 1" sample_exp = Ok out
    /\ rectangular out.
Proof.
  pose proof (process_table_rectangular sample_float_str
                "exps/experiment_1.xlsx" (sample_attendance sample_float_str)
                "Session 1" sample_exp) as H.
  destruct (process_table sample_float_str "exps/experiment_1.xlsx"
              (sample_attendance sample_float_str) "Session 1" sample_exp)
    as [out|e] eqn:Hout; [|vm_compute in Hout; discriminate Hout].
  exists out. split; [reflexivity|]. apply H; [|reflexivity].
  intros row Hrow c. cbn [rows columns sample_exp] in *.
  assert (Hlabels : forall roll name oral total,
            is_Some (sample_row roll name oral total !! c)
            <-> c ∈ ["Roll No"; "Name"; "Oral Presentation"; "Total"]).
  { intros roll name oral total. unfold sample_row.
    rewrite !lookup_insert_is_Some', !elem_of_cons, elem_of_nil.
    pose proof (lookup_empty_is_Some (M := gmap string) (A := value) c).
    intuition (subst; auto). }
  repeat (apply elem_of_cons in Hrow as [Hrow|Hrow];
          [subst row; apply Hlabels|]).
  exfalso. revert Hrow. apply not_elem_of_nil.
Defined.

Lemma loaded_frame_shape_witness :
  columns (sample_attendance sample_float_str)
  = ["Roll No."; "Name"; "Surname"; "Session 1"; "Session 2"; "Session 3";
     "Session 4"; "__roll_num_key"]
  /\ length (rows (sample_attendance sample_float_str))
     = length (data_rows sample_csv)
  /\ (0 < length (rows (sample_attendance sample_float_str)))%nat
  /\ rectangular (sample_attendance sample_float_str)
  /\ forall row session_num,
       row ∈ rows (sample_attendance sample_float_str) ->
       session_num ∈ SESSION_NUMS ->
       exists b, row !! session_label session_num = Some (VBool b).
Proof.
  apply (loaded_frame_shape sample_float_str sample_csv
           (sample_attendance sample_float_str)).
  vm_compute. reflexivity.
Defined.

Lemma attendance_map_domain_witness :
  exists r,
    r ∈ rows (sample_attendance sample_float_str)
    /\ dict_key (cell r ROLL_KEY) = Some 14.
Proof.
  apply (proj1 (attendance_map_domain (sample_attendance sample_float_str)
                  ROLL_KEY "Session 1" sample_map
                  ltac:(vm_compute; reflexivity) 14)).
  exists (VBool true). vm_compute. reflexivity.
Defined.




Lemma process_experiment_in_place_twice_witness :
  exists w' l,
    process_experiment sample_float_str sample_world "exps/experiment_2.xlsx"
      (sample_attendance sample_float_str) "Session 2" None = Ok (w', l)
    /\ process_experiment sample_float_str w' "exps/experiment_2.xlsx"
         (sample_attendance sample_float_str) "Session 2" None = Ok (w', l).
Proof.
  pose proof (process_experiment_in_place_twice sample_float_str sample_world
                "exps/experiment_2.xlsx" (sample_attendance sample_float_str)
                "Session 2" sample_exp) as H.
  destruct (process_experiment sample_float_str sample_world
              "exps/experiment_2.xlsx" (sample_attendance sample_float_str)
              "Session 2" None)
    as [[w' l]|e] eqn:Hrun; [|vm_compute in Hrun; discriminate Hrun].
  exists w', l. split; [reflexivity|]. apply H.
  - vm_compute. reflexivity.
  - vm_compute. intros Heq. discriminate Heq.
  - reflexivity.
Defined.



Lemma marking_loop_rows_independent_witness :
  rows (mark_rows sample_float_str sample_map
          (setitem_scalar sample_exp ROLL_KEY (VInt 14))) !! 2%nat
  = rows (mark_rows sample_float_str sample_map
            {| columns := columns (setitem_scalar sample_exp ROLL_KEY (VInt 14));
               rows := [<[ROLL_KEY := VInt 14]>
                          (sample_row (VStr "16") "Bob" 1 7)] |}) !! 0%nat.
Proof.
  apply (proj2 (proj2 (marking_loop_rows_independent sample_float_str
                         sample_map
                         (setitem_scalar sample_exp ROLL_KEY (VInt 14))))
           2%nat).
  vm_compute. reflexivity.
Defined.
